(** * payment-binder: the request engine and the provider adapters

    A shallow embedding of [providers/schemas.py], [providers/base_provider.py],
    [providers/paddle.py] and [providers/razorpay.py].

    Conventions of the embedding.
    - Python [int] is [Z]; [str] is [string] (ASCII text); a [dict] is an
      association list in insertion order, read with first-match lookup.
    - Python [float] is an exact rational [Q]: rounding and overflow of
      binary64 arithmetic are outside the model.
    - A coroutine is a computation in the monad [M]: it threads the number of
      HTTP requests issued so far, appends to a trace of observable effects
      (requests, log records, sleeps) and ends with a value or a raised
      exception.  One logical call awaits its steps in sequence, so no
      interleaving has to be modelled.
    - The network is a function from the index of a request (0 for the first
      request ever issued) to what [client.request] does for it.  A run asks
      its requests one after the other, so every behaviour of a provider
      during a run is such a function.
    - Names the adapter modules use without importing them ([AuthMethod],
      [APIResponse], [APIError], [loaded_config], ...) are taken to be bound
      as their use says.  [APIError] is an exception class of the package
      and no subclass of [httpx.RequestError].
    - The decoded body of a response is an arbitrary JSON value: an object,
      as the annotation [Dict[str, Any]] of [_make_request] expects, or
      [null], a list, a string, a number or a truth value.
    - [httpx] and [pydantic] are libraries and not among the source files.
      Of [client.request] the model has the three ways it ends: a response,
      an [httpx.RequestError], or an exception that is no [RequestError]
      ([httpx.InvalidURL], say).  Of the validation of [APIResponse] it has
      what all versions of pydantic agree on; the rest is the parameter
      [coerce]. *)

From Stdlib Require Import ZArith QArith Qround List String Ascii Bool Lia.
Import ListNotations.

Set Warnings "-register-all".
Local Open Scope Z_scope.

(* ================================================================== *)
(** * Python values *)

Module Py.

(** The interpreter line the package runs on ([python_requires=">=3.10"]).
    The two lines format a member of a [str]-mixin [Enum] differently. *)
Inductive python_version := Py310 | Py311.

(** A timezone-aware [datetime] in UTC. *)
Record datetime := mk_datetime {
  year : Z; month : Z; day : Z;
  hour : Z; minute : Z; second : Z; microsecond : Z
}.

(** JSON documents and the other values the adapters put into result
    dictionaries. *)
Inductive value :=
| VNone
| VBool (b : bool)
| VInt (z : Z)
| VFloat (q : Q)
| VStr (s : string)
| VList (l : list value)
| VDict (d : list (string * value))
| VDatetime (t : datetime).

Definition dict (A : Type) := list (string * A).

Fixpoint lookup {A} (d : dict A) (k : string) : option A :=
  match d with
  | [] => None
  | (k', v) :: d' => if String.eqb k' k then Some v else lookup d' k
  end.

(** [d[k] = v] *)
Fixpoint setitem {A} (d : dict A) (k : string) (v : A) : dict A :=
  match d with
  | [] => [(k, v)]
  | (k', v') :: d' =>
      if String.eqb k' k then (k, v) :: d' else (k', v') :: setitem d' k v
  end.

(** [d.get(k, default)] on a dictionary. *)
Definition dict_get {A} (d : dict A) (k : string) (default : A) : A :=
  match lookup d k with Some v => v | None => default end.

(** [exceptions.APIError] is not among the source files: the record holds
    what [_make_request] constructs it from. *)
Record APIError := mk_APIError {
  message : string;
  status_code : option Z;
  response_text : option string
}.

(** The exceptions that occur.  [RangeError] stands for the [ValueError],
    [OverflowError] or [OSError] that [datetime.fromtimestamp] raises for a
    timestamp outside years 1 to 9999.  [ValidationError] is pydantic's.
    [ClientError cls] is an exception of class [cls] that [client.request]
    raises and that is no [httpx.RequestError]: [httpx.InvalidURL] for a URL
    httpx does not accept, [TypeError] for a payload that does not encode as
    JSON. *)
Inductive exn :=
| ExAPIError (e : APIError)
| JSONDecodeError
| TypeError
| AttributeError
| KeyError
| IndexError
| RangeError
| ValidationError
| ClientError (cls : string).

(** How an expression without effects ends. *)
Inductive res (A : Type) :=
| Ok (a : A)
| Raise (e : exn).
Arguments Ok {A} a.
Arguments Raise {A} e.

Definition res_bind {A B} (r : res A) (f : A -> res B) : res B :=
  match r with
  | Ok a => f a
  | Raise e => Raise e
  end.

(** [v.get(k, default)] on an arbitrary value. *)
Definition get (v : value) (k : string) (default : value) : res value :=
  match v with
  | VDict d => Ok (dict_get d k default)
  | _ => Raise AttributeError
  end.

(** [v[k]] with a string key. *)
Definition getitem (v : value) (k : string) : res value :=
  match v with
  | VDict d => match lookup d k with Some x => Ok x | None => Raise KeyError end
  | _ => Raise TypeError
  end.

(** [v[0]] *)
Definition getitem0 (v : value) : res value :=
  match v with
  | VList [] => Raise IndexError
  | VList (x :: _) => Ok x
  | VStr EmptyString => Raise IndexError
  | VStr (String c _) => Ok (VStr (String c EmptyString))
  | VDict _ => Raise KeyError
  | _ => Raise TypeError
  end.

(** [bool(v)] *)
Definition truthy (v : value) : bool :=
  match v with
  | VNone => false
  | VBool b => b
  | VInt z => negb (z =? 0)
  | VFloat q => negb (Qeq_bool q 0)
  | VStr s => negb (String.eqb s EmptyString)
  | VList l => match l with [] => false | _ => true end
  | VDict d => match d with [] => false | _ => true end
  | VDatetime _ => true
  end.

(** [a or b] for an optional string. *)
Definition str_or (a : option string) (b : string) : string :=
  match a with
  | Some s => if String.eqb s EmptyString then b else s
  | None => b
  end.

Definition lower_ascii (c : ascii) : ascii :=
  let n := nat_of_ascii c in
  if (Nat.leb 65 n && Nat.leb n 90)%bool then ascii_of_nat (n + 32) else c.

(** [s.lower()] *)
Fixpoint lower (s : string) : string :=
  match s with
  | EmptyString => EmptyString
  | String c s' => String (lower_ascii c) (lower s')
  end.

(** ** [datetime.fromtimestamp(t, tz=timezone.utc)] *)

(** The proleptic Gregorian date of a day number counted from 1970-01-01. *)
Definition civil_from_days (days : Z) : Z * Z * Z :=
  let z := days + 719468 in
  let era := z / 146097 in
  let doe := z mod 146097 in
  let yoe := (doe - doe / 1460 + doe / 36524 - doe / 146096) / 365 in
  let doy := doe - (365 * yoe + yoe / 4 - yoe / 100) in
  let mp := (5 * doy + 2) / 153 in
  let d := doy - (153 * mp + 2) / 5 + 1 in
  let m := if mp <? 10 then mp + 3 else mp - 9 in
  let y := yoe + era * 400 + (if m <=? 2 then 1 else 0) in
  (y, m, d).

Definition min_timestamp : Z := -62135596800.   (* 0001-01-01T00:00:00Z *)
Definition max_timestamp : Z := 253402300799.   (* 9999-12-31T23:59:59Z *)

Definition utc_of_micros (us : Z) : res datetime :=
  let secs := us / 1000000 in
  if (min_timestamp <=? secs) && (secs <=? max_timestamp) then
    let '(y, m, d) := civil_from_days (secs / 86400) in
    let sod := secs mod 86400 in
    Ok (mk_datetime y m d (sod / 3600) (sod mod 3600 / 60) (sod mod 60)
                    (us mod 1000000))
  else Raise RangeError.

(** Rounding to the nearest integer, ties to even. *)
Definition round_half_even (q : Q) : Z :=
  let f := Qfloor q in
  match Qcompare (q - inject_Z f) (1 # 2) with
  | Lt => f
  | Gt => f + 1
  | Eq => if Z.even f then f else f + 1
  end.

Definition fromtimestamp (t : value) : res datetime :=
  match t with
  | VInt z => utc_of_micros (z * 1000000)
  | VBool b => utc_of_micros (if b then 1000000 else 0)
  | VFloat q => utc_of_micros (round_half_even (q * inject_Z 1000000))
  | _ => Raise TypeError
  end.

Definition unix_epoch : datetime := mk_datetime 1970 1 1 0 0 0 0.

End Py.
Import Py.

(* ================================================================== *)
(** * schemas.py *)

Inductive AuthMethod := BASIC | BEARER | API_KEY.

Definition AuthMethod_value (m : AuthMethod) : string :=
  match m with
  | BASIC => "Basic"
  | BEARER => "Bearer"
  | API_KEY => "ApiKey"
  end.

Definition AuthMethod_name (m : AuthMethod) : string :=
  match m with
  | BASIC => "BASIC"
  | BEARER => "BEARER"
  | API_KEY => "API_KEY"
  end.

Definition AuthMethod_eqb (a b : AuthMethod) : bool :=
  match a, b with
  | BASIC, BASIC | BEARER, BEARER | API_KEY, API_KEY => true
  | _, _ => false
  end.

(** [f"{auth_method}"].  Up to Python 3.10 the format of a member of a
    [str]-mixin enum is the format of its value; from 3.11 on it is
    [str(member)], the qualified member name. *)
Definition AuthMethod_format (py : python_version) (m : AuthMethod) : string :=
  match py with
  | Py310 => AuthMethod_value m
  | Py311 => ("AuthMethod." ++ AuthMethod_name m)%string
  end.

Record APIResponse := mk_APIResponse {
  success : bool;
  data : option (dict value);
  error : option string;
  raw_response : option (dict value)
}.

(** What pydantic makes of a value given for a field annotated
    [Optional[Dict[str, Any]]].  [None] and a dictionary with string keys
    pass as they are.  For any other value the verdict depends on the
    version of pydantic, which the package does not fix: version 2 raises
    [ValidationError]; version 1 first tries [dict(v)], which makes a
    dictionary of some lists and of the empty string, and raises
    [ValidationError] otherwise.  [coerce] is that verdict: the dictionary
    made of the value, or [None] for a [ValidationError]. *)
Definition optional_dict (coerce : value -> option (dict value)) (v : value)
    : res (option (dict value)) :=
  match v with
  | VNone => Ok None
  | VDict d => Ok (Some d)
  | _ =>
      match coerce v with
      | Some d => Ok (Some d)
      | None => Raise ValidationError
      end
  end.

(** [APIResponse(success=True, data=data, raw_response=raw_response)]: the
    truth value and the dictionary the adapters build pass validation as
    they are. *)
Definition APIResponse_init (coerce : value -> option (dict value))
    (data : dict value) (raw_response : value) : res APIResponse :=
  res_bind (optional_dict coerce raw_response) (fun raw =>
  Ok (mk_APIResponse true (Some data) None raw)).

Inductive BillingCycle := DAILY | WEEKLY | MONTHLY | YEARLY.

Definition BillingCycle_name (c : BillingCycle) : string :=
  match c with
  | DAILY => "DAILY"
  | WEEKLY => "WEEKLY"
  | MONTHLY => "MONTHLY"
  | YEARLY => "YEARLY"
  end.

Definition BillingCycle_value (c : BillingCycle) : string :=
  match c with
  | DAILY => "day"
  | WEEKLY => "week"
  | MONTHLY => "month"
  | YEARLY => "year"
  end.

(* ================================================================== *)
(** * Effects of a coroutine *)

Inductive log_level := DEBUG | INFO | WARNING | ERROR.

(** What [client.request] is called with, under [AsyncClient(timeout=...)]. *)
Record http_request := mk_http_request {
  req_method : string;
  req_url : string;
  req_headers : dict string;
  req_json : option (dict value);
  req_params : option (dict value);
  req_timeout : Q
}.

(** What the code reads of an [httpx.Response]: [status_code], [text] and
    [json()], the JSON value the body decodes to, which is [None] here when
    the body does not decode. *)
Record response := mk_response {
  resp_status_code : Z;
  resp_text : string;
  resp_json : option value
}.

(** How one call of [client.request] ends: with a response; with an
    [httpx.RequestError] [exc], [str(exc)] being the given text; or with an
    exception of another class, which httpx raises before anything is sent:
    [httpx.InvalidURL], which is no [RequestError], for a URL it does not
    accept (one with a control character, say), or [TypeError] for a payload
    that does not encode as JSON.  Being library code, [client.request]
    raises no [APIError].  Whether a request is rejected in this way is
    httpx's matter: the model leaves it to the network function, which so
    allows more runs than httpx does. *)
Inductive outcome :=
| Responded (r : response)
| Failed (msg : string)
| Rejected (cls : string).

Inductive event :=
| EvRequest (r : http_request)
| EvLog (lvl : log_level) (fmt : string)
| EvSleep (seconds : Q).

(** The exceptions of a coroutine: those of [Py], or [httpx.RequestError]. *)
Inductive fault :=
| PyExn (e : exn)
| RequestError (msg : string).

(** How a coroutine ends.  [Diverges] is the embedding's own: a loop that was
    cut off before its condition turned false. *)
Inductive ending (A : Type) :=
| Returns (a : A)
| Raises (e : fault)
| Diverges.
Arguments Returns {A} a.
Arguments Raises {A} e.
Arguments Diverges {A}.

Definition M (A : Type) : Type := nat -> ending A * nat * list event.

Definition ret {A} (a : A) : M A := fun n => (Returns a, n, []).

Definition bind {A B} (m : M A) (f : A -> M B) : M B :=
  fun n =>
    match m n with
    | (Returns a, n', t) => let '(r, n'', t') := f a n' in (r, n'', t ++ t')
    | (Raises e, n', t) => (Raises e, n', t)
    | (Diverges, n', t) => (Diverges, n', t)
    end.

Definition raise {A} (e : fault) : M A := fun n => (Raises e, n, []).

Definition emit (e : event) : M unit := fun n => (Returns tt, n, [e]).

(** A pure step that may raise. *)
Definition lift {A} (r : res A) : M A :=
  fun n =>
    match r with
    | Ok a => (Returns a, n, [])
    | Raise e => (Raises (PyExn e), n, [])
    end.

(** [try: m except ...: handler]; the handler answers [None] for an exception
    its [except] clause does not match. *)
Definition try_except {A} (m : M A) (handler : fault -> option (M A)) : M A :=
  fun n =>
    match m n with
    | (Raises e, n', t) =>
        match handler e with
        | Some h => let '(r, n'', t') := h n' in (r, n'', t ++ t')
        | None => (Raises e, n', t)
        end
    | other => other
    end.

Declare Scope coroutine_scope.
Delimit Scope coroutine_scope with co.
Notation "x <- c1 ;; c2" := (bind c1 (fun x => c2))
  (at level 61, c1 at next level, right associativity) : coroutine_scope.
Notation "c1 ;; c2" := (bind c1 (fun _ => c2))
  (at level 61, right associativity) : coroutine_scope.

(* ================================================================== *)
(** * base_provider.py *)

Record BaseAPIClient := mk_BaseAPIClient {
  base_url : string;
  api_secret : string;
  timeout : Q;
  headers : dict string
}.

(** [BaseAPIClient._build_headers] *)
Definition _build_headers (py : python_version) (api_secret : string)
    (auth_method : AuthMethod) : dict string :=
  let headers := [("Content-Type", "application/json")]%string in
  if existsb (AuthMethod_eqb auth_method) [BASIC; BEARER] then
    setitem headers "Authorization"
      (AuthMethod_format py auth_method ++ " " ++ api_secret)%string
  else if AuthMethod_eqb auth_method API_KEY then
    setitem headers "X-Api-Key" api_secret
  else headers.

(** [BaseAPIClient.__init__] *)
Definition BaseAPIClient_init (py : python_version) (base_url api_secret : string)
    (auth_method : AuthMethod) (timeout : Q) : BaseAPIClient :=
  mk_BaseAPIClient base_url api_secret timeout
    (_build_headers py api_secret auth_method).

(** How one pass through the body of the [while] loop ends. *)
Inductive loop_step (A : Type) :=
| Return (a : A)
| Continue.
Arguments Return {A} a.
Arguments Continue {A}.

Definition status_ok (status : Z) : bool :=
  existsb (Z.eqb status) [200; 201; 202].

Section Transport.

(** The network: what the [n]-th request ever issued meets. *)
Variable net : nat -> outcome.

(** [async with httpx.AsyncClient(...) as client: await client.request(...)] *)
Definition send (r : http_request) : M response :=
  fun n =>
    match net n with
    | Responded resp => (Returns resp, S n, [EvRequest r])
    | Failed msg => (Raises (RequestError msg), S n, [EvRequest r])
    | Rejected cls => (Raises (PyExn (ClientError cls)), S n, [EvRequest r])
    end.

(** [response.json()] *)
Definition json (r : response) : res value :=
  match resp_json r with
  | Some body => Ok body
  | None => Raise JSONDecodeError
  end.

Section Loop.

Variables (self : BaseAPIClient) (method url : string).
Variables (json_body params : option (dict value)).
Variables (retries : Z) (backoff_factor : Q).

(** The [while attempt < retries] loop of [_make_request]; [fuel] bounds the
    number of passes.  A loop that ends without a [return] hands back
    [None]. *)
Fixpoint request_loop (fuel : nat) (attempt : Z) : M value :=
  if attempt <? retries then
    match fuel with
    | O => fun n => (Diverges, n, [])
    | S fuel' =>
        let attempt := attempt + 1 in
        (step <-
           try_except
             (response <- send (mk_http_request method url (headers self)
                                  json_body params (timeout self)) ;;
              if status_ok (resp_status_code response) then
                (if 1 <? attempt
                 then emit (EvLog INFO "API call succeeded on retry %d: %s %s")
                 else emit (EvLog DEBUG "API call succeeded: %s %s")) ;;
                body <- lift (json response) ;;
                ret (Return body)
              else
                emit (EvLog ERROR
                  "API call failed: %s %s [Status Code: %d] Response: %s") ;;
                if retries <=? attempt then
                  raise (PyExn (ExAPIError
                    (mk_APIError "API call failed after retries"
                       (Some (resp_status_code response))
                       (Some (resp_text response)))))
                else ret Continue)
             (fun e =>
                match e with
                | RequestError exc =>
                    Some
                      (if attempt <? retries then
                         let wait_time :=
                           (backoff_factor * inject_Z (2 ^ (attempt - 1)))%Q in
                         emit (EvLog WARNING
                           "Request error during API call: %s %s. Attempt %d/%d. Retrying in %.2f seconds. Error: %s") ;;
                         emit (EvSleep wait_time) ;;
                         ret Continue
                       else
                         emit (EvLog ERROR
                           "Exhausted all retries for API call: %s %s. Error: %s") ;;
                         raise (PyExn (ExAPIError
                           (mk_APIError ("Request error after retries: " ++ exc)
                              None None))))
                | PyExn _ => None
                end) ;;
         match step with
         | Return v => ret v
         | Continue => request_loop fuel' attempt
         end)%co
    end
  else ret VNone.

End Loop.

(** [BaseAPIClient._make_request]; a call that leaves [retries] and
    [backoff_factor] out takes [default_retries] and
    [default_backoff_factor]. *)
Definition _make_request (self : BaseAPIClient) (method endpoint : string)
    (json_body params : option (dict value))
    (retries : Z) (backoff_factor : Q) : M value :=
  let url := (base_url self ++ endpoint)%string in
  request_loop self method url json_body params retries backoff_factor
    (Z.to_nat retries) 0.

Definition default_retries : Z := 3.
Definition default_backoff_factor : Q := 3 # 2.
Definition default_timeout : Q := 30.

End Transport.

(* ================================================================== *)
(** * Collaborators outside the source files

    [PlanSchema], [UserData], [loaded_config] and [DateHelper] are imported by
    the adapters from modules that are not among the source files.  The
    records hold the attributes the adapters read; identifiers and amounts
    are taken in the form the adapters send ([str(id)] and [int(amount)]
    leave them as they are). *)

Module PlanSchema.
Record t := mk {
  id : string;
  name : string;
  description : option string;
  amount : Z;
  currency : option string;
  billing_cycle : string;
  psp_price_id : string
}.
End PlanSchema.

Module UserData.
Record t := mk {
  email : string;
  firstName : string;
  lastName : string
}.
End UserData.

Record Config := mk_Config {
  paddle_api_base_url : string;
  paddle_api_secret : string;
  razorpay_api_base_url : string;
  razorpay_api_secret : string
}.

(** A field annotated [Optional[Dict[str, Any]]] as a value. *)
Definition of_optional (response : option (dict value)) : value :=
  match response with
  | Some d => VDict d
  | None => VNone
  end.

(** [r.get(k1, {}).get(k2)] *)
Definition get_in (r : value) (k1 k2 : string) : res value :=
  res_bind (get r k1 (VDict [])) (fun d => get d k2 VNone).

(** The clause every operation of the adapters ends with:
    [except APIError as e: return APIResponse(success=False, error=str(e))].
    [str] is [APIError.__str__], which is not among the source files. *)
Definition except_APIError (str : APIError -> string) (e : fault)
    : option (M APIResponse) :=
  match e with
  | PyExn (ExAPIError e) =>
      Some (ret (mk_APIResponse false None (Some (str e)) None))
  | _ => None
  end.

Local Open Scope string_scope.

(* ================================================================== *)
(** * paddle.py *)

Module Paddle.

(** [PaddleClient.__init__] *)
Definition PaddleClient (py : python_version) (loaded_config : Config)
    (api_secret : option string) : BaseAPIClient :=
  BaseAPIClient_init py (paddle_api_base_url loaded_config)
    (str_or api_secret (paddle_api_secret loaded_config))
    BEARER default_timeout.

Definition mapping : dict string :=
  [("daily", "day"); ("weekly", "week"); ("monthly", "month"); ("yearly", "year")].

(** [PaddleClient._map_billing_cycle] *)
Definition _map_billing_cycle (billing_cycle : string) : string :=
  dict_get mapping (lower billing_cycle) "month".

(** [PaddleClient._normalize_subscription_details] *)
Definition _normalize_subscription_details (subscription_data : value)
    : res (dict value) :=
  res_bind (get subscription_data "id" VNone) (fun id =>
  res_bind (get subscription_data "status" VNone) (fun status =>
  res_bind (get subscription_data "created_at" VNone) (fun created_at =>
  res_bind (get subscription_data "next_billed_at" VNone) (fun next_billed_at =>
  res_bind
    (res_bind (get subscription_data "items" VNone) (fun items =>
       if truthy items then
         res_bind (get subscription_data "items" (VList [VDict []])) (fun l =>
         res_bind (getitem0 l) (fun item => get item "price_id" VNone))
       else Ok VNone)) (fun plan_id =>
  res_bind (get subscription_data "customer_id" VNone) (fun customer_id =>
  Ok [("id", id);
      ("status", status);
      ("created_at", created_at);
      ("next_billing_date", next_billed_at);
      ("plan_id", plan_id);
      ("customer_id", customer_id)])))))).

Section Operations.

Context (net : nat -> outcome) (str : APIError -> string).
Context (coerce : value -> option (dict value)).
Variable self : BaseAPIClient.

Local Abbreviation request method endpoint body :=
  (_make_request net self method endpoint body None
     default_retries default_backoff_factor).

Definition create_transaction (plan_details : PlanSchema.t)
    (subscription_id : string) (user_data : UserData.t) : M APIResponse :=
  try_except
    (let body :=
       [("items", VList [VDict [("price_id", VStr (PlanSchema.psp_price_id plan_details));
                                ("quantity", VInt 1)]]);
        ("customer", VDict [("email", VStr (UserData.email user_data))]);
        ("custom_data", VDict [("plan_id", VStr (PlanSchema.id plan_details));
                               ("subscription_id", VStr subscription_id)])] in
     response <- request "POST" "/transactions" (Some body) ;;
     transaction_id <- lift (get_in response "data" "id") ;;
     checkout_url <- lift (get_in response "data" "checkout_url") ;;
     lift (APIResponse_init coerce
             [("transaction_id", transaction_id);
              ("checkout_url", checkout_url)]
             response))%co
    (except_APIError str).

Definition create_plan (plan_details : PlanSchema.t) : M APIResponse :=
  try_except
    (let product_payload :=
       [("name", VStr (PlanSchema.name plan_details));
        ("tax_category", VStr "digital-goods");
        ("description", VStr (str_or (PlanSchema.description plan_details)
                                     (PlanSchema.name plan_details)))] in
     product <- request "POST" "/products" (Some product_payload) ;;
     product_id <- lift (res_bind (getitem product "data")
                                  (fun d => getitem d "id")) ;;
     let price_payload :=
       [("name", VStr (PlanSchema.name plan_details));
        ("product_id", product_id);
        ("description", VStr (str_or (PlanSchema.description plan_details)
                                     (PlanSchema.name plan_details)));
        ("unit_price",
         VDict [("amount", VInt (PlanSchema.amount plan_details));
                ("currency_code",
                 VStr (str_or (PlanSchema.currency plan_details) "USD"))]);
        ("billing_cycle",
         VDict [("interval",
                 VStr (_map_billing_cycle (PlanSchema.billing_cycle plan_details)));
                ("frequency", VInt 1)]);
        ("tax_mode", VStr "account_setting");
        ("quantity", VDict [("minimum", VInt 1); ("maximum", VInt 1)])] in
     price <- request "POST" "/prices" (Some price_payload) ;;
     product_id <- lift (res_bind (getitem product "data")
                                  (fun d => getitem d "id")) ;;
     price_id <- lift (res_bind (getitem price "data")
                                (fun d => getitem d "id")) ;;
     lift (APIResponse_init coerce
             [("product_id", product_id); ("price_id", price_id)]
             (VDict [("product", product); ("price", price)])))%co
    (except_APIError str).

Definition get_transaction_invoice (transaction_id : string) : M APIResponse :=
  try_except
    (response <- request "GET" ("/transactions/" ++ transaction_id ++ "/invoice")
                   None ;;
     invoice_url <- lift (get_in response "data" "invoice_url") ;;
     invoice_id <- lift (get_in response "data" "id") ;;
     lift (APIResponse_init coerce
             [("invoice_url", invoice_url); ("invoice_id", invoice_id)]
             response))%co
    (except_APIError str).

Definition get_subscription_details (subscription_id : string) : M APIResponse :=
  try_except
    (response <- request "GET" ("/subscriptions/" ++ subscription_id) None ;;
     subscription_data <- lift (get response "data" (VDict [])) ;;
     details <- lift (_normalize_subscription_details subscription_data) ;;
     lift (APIResponse_init coerce details response))%co
    (except_APIError str).

Definition end_subscription (subscription_id : string) : M APIResponse :=
  try_except
    (let payload := [("effective_from", VStr "next_billing_period")] in
     response <- request "POST" ("/subscriptions/" ++ subscription_id ++ "/cancel")
                   (Some payload) ;;
     lift (APIResponse_init coerce
             [("subscription_id", VStr subscription_id);
              ("status", VStr "cancelled")]
             response))%co
    (except_APIError str).

Definition create_customer (user_data : UserData.t) : M APIResponse :=
  try_except
    (let customer_payload :=
       [("email", VStr (UserData.email user_data));
        ("name", VStr (UserData.firstName user_data ++ " "
                       ++ UserData.lastName user_data))] in
     response <- request "POST" "/customers" (Some customer_payload) ;;
     customer_id <- lift (get_in response "data" "id") ;;
     lift (APIResponse_init coerce [("customer_id", customer_id)] response))%co
    (except_APIError str).

End Operations.

End Paddle.

(* ================================================================== *)
(** * razorpay.py *)

Module Razorpay.

(** [RazorpayClient.__init__] *)
Definition RazorpayClient (py : python_version) (loaded_config : Config)
    (api_secret : option string) : BaseAPIClient :=
  BaseAPIClient_init py (razorpay_api_base_url loaded_config)
    (str_or api_secret (razorpay_api_secret loaded_config))
    BASIC default_timeout.

Definition mapping : dict string :=
  [("daily", "daily"); ("weekly", "weekly"); ("monthly", "monthly");
   ("yearly", "yearly")].

(** [RazorpayClient._map_billing_cycle] *)
Definition _map_billing_cycle (billing_cycle : string) : string :=
  dict_get mapping (lower billing_cycle) "monthly".

(** [RazorpayClient._normalize_subscription_details] *)
Definition _normalize_subscription_details (subscription_data : value)
    : res (dict value) :=
  res_bind (get subscription_data "id" VNone) (fun id =>
  res_bind (get subscription_data "status" VNone) (fun status =>
  res_bind (res_bind (get subscription_data "created_at" (VInt 0)) fromtimestamp)
    (fun created_at =>
  res_bind (res_bind (get subscription_data "current_end" (VInt 0)) fromtimestamp)
    (fun next_billing_date =>
  res_bind (get subscription_data "plan_id" VNone) (fun plan_id =>
  res_bind (get subscription_data "customer_id" VNone) (fun customer_id =>
  Ok [("id", id);
      ("status", status);
      ("created_at", VDatetime created_at);
      ("next_billing_date", VDatetime next_billing_date);
      ("plan_id", plan_id);
      ("customer_id", customer_id)])))))).

Section Operations.

Context (net : nat -> outcome) (str : APIError -> string).
Context (coerce : value -> option (dict value)).

(** [DateHelper.convert_date_to_epoch()] and
    [DateHelper.convert_date_to_epoch(datetime.now(timezone.utc) + timedelta(days=2))]
    at the time of the call. *)
Context (date_epoch expire_by_epoch : value).

Variable self : BaseAPIClient.

Local Abbreviation request method endpoint body :=
  (_make_request net self method endpoint body None
     default_retries default_backoff_factor).

Definition create_customer (user_data : UserData.t) : M APIResponse :=
  try_except
    (let customer_payload :=
       [("name", VStr (UserData.firstName user_data ++ " "
                       ++ UserData.lastName user_data));
        ("email", VStr (UserData.email user_data));
        ("fail_existing", VInt 0)] in
     response <- request "POST" "/customers" (Some customer_payload) ;;
     customer_id <- lift (get response "id" VNone) ;;
     lift (APIResponse_init coerce [("customer_id", customer_id)] response))%co
    (except_APIError str).

Definition create_transaction (plan_details : PlanSchema.t)
    (subscription_id : string) (user_data : UserData.t) : M APIResponse :=
  try_except
    (customer_response <- create_customer user_data ;;
     if negb (success customer_response) then ret customer_response
     else
       customer_id <- lift (get (of_optional (data customer_response))
                                "customer_id" VNone) ;;
       let subscription_payload :=
         [("plan_id", VStr (PlanSchema.psp_price_id plan_details));
          ("total_count", VInt 100);
          ("quantity", VInt 1);
          ("customer_notify", VInt 1);
          ("customer_id", customer_id);
          ("notes", VDict [("internal_subscription_id", VStr subscription_id);
                           ("plan_id", VStr (PlanSchema.id plan_details))])] in
       response <- request "POST" "/subscriptions" (Some subscription_payload) ;;
       razorpay_subscription_id <- lift (get response "id" VNone) ;;
       invoice_id <- lift (get response "invoice_id" VNone) ;;
       checkout_url <- lift (get response "short_url" VNone) ;;
       lift (APIResponse_init coerce
               [("subscription_id", razorpay_subscription_id);
                ("invoice_id", invoice_id);
                ("checkout_url", checkout_url)]
               response))%co
    (except_APIError str).

Definition create_plan (plan_details : PlanSchema.t) : M APIResponse :=
  try_except
    (let body :=
       [("period", VStr (_map_billing_cycle (PlanSchema.billing_cycle plan_details)));
        ("interval", VInt 1);
        ("item",
         VDict [("name", VStr (PlanSchema.name plan_details));
                ("amount", VInt (PlanSchema.amount plan_details));
                ("currency", VStr (str_or (PlanSchema.currency plan_details) "USD"));
                ("description",
                 VStr (str_or (PlanSchema.description plan_details)
                              (PlanSchema.name plan_details)))])] in
     response <- request "POST" "/plans" (Some body) ;;
     plan_id <- lift (get response "id" VNone) ;;
     lift (APIResponse_init coerce [("plan_id", plan_id)] response))%co
    (except_APIError str).

Definition get_transaction_invoice (invoice_id : string) : M APIResponse :=
  try_except
    (response <- request "GET" ("/invoices/" ++ invoice_id) None ;;
     invoice_url <- lift (get response "short_url" VNone) ;;
     id <- lift (get response "id" VNone) ;;
     status <- lift (get response "status" VNone) ;;
     lift (APIResponse_init coerce
             [("invoice_url", invoice_url); ("invoice_id", id);
              ("status", status)]
             response))%co
    (except_APIError str).

Definition issue_invoice (invoice_id : string) : M APIResponse :=
  try_except
    (response <- request "POST" ("/invoices/" ++ invoice_id ++ "/issue") None ;;
     id <- lift (get response "id" VNone) ;;
     status <- lift (get response "status" VNone) ;;
     lift (APIResponse_init coerce
             [("invoice_id", id); ("status", status)]
             response))%co
    (except_APIError str).

Definition draft_invoice (customer_id plan_name : string) (plan_amount : Z)
    (plan_currency plan_description : string) : M APIResponse :=
  try_except
    (let body :=
       [("type", VStr "invoice");
        ("date", date_epoch);
        ("customer_id", VStr customer_id);
        ("line_items",
         VList [VDict [("name", VStr plan_name);
                       ("description", VStr plan_description);
                       ("amount", VInt plan_amount);
                       ("currency", VStr plan_currency)]]);
        ("expire_by", expire_by_epoch);
        ("draft", VInt 1)] in
     response <- request "POST" "/invoices" (Some body) ;;
     id <- lift (get response "id" VNone) ;;
     status <- lift (get response "status" VNone) ;;
     lift (APIResponse_init coerce
             [("invoice_id", id); ("status", status)]
             response))%co
    (except_APIError str).

Definition get_subscription_details (subscription_id : string) : M APIResponse :=
  try_except
    (response <- request "GET" ("/subscriptions/" ++ subscription_id) None ;;
     details <- lift (_normalize_subscription_details response) ;;
     lift (APIResponse_init coerce details response))%co
    (except_APIError str).

Definition end_subscription (subscription_id : string) : M APIResponse :=
  try_except
    (let body := [("cancel_at_cycle_end", VBool true)] in
     response <- request "POST" ("/subscriptions/" ++ subscription_id ++ "/cancel")
                   (Some body) ;;
     status <- lift (get response "status" VNone) ;;
     lift (APIResponse_init coerce
             [("subscription_id", VStr subscription_id);
              ("status", status)]
             response))%co
    (except_APIError str).

Definition get_payment_downtimes : M APIResponse :=
  try_except
    (response <- request "GET" "/payments/downtimes" None ;;
     downtimes <- lift (get response "items" (VList [])) ;;
     lift (APIResponse_init coerce [("downtimes", downtimes)] response))%co
    (except_APIError str).

End Operations.

End Razorpay.

Local Close Scope string_scope.

(* ================================================================== *)
(** * The provider contract *)

Inductive adapter := PaddleAdapter | RazorpayAdapter.

(** The operations of [PaymentProvider], with their arguments. *)
Inductive operation :=
| CreateTransaction (plan_details : PlanSchema.t) (subscription_id : string)
                    (user_data : UserData.t)
| CreatePlan (plan_details : PlanSchema.t)
| GetTransactionInvoice (transaction_id : string)
| GetSubscriptionDetails (subscription_id : string)
| EndSubscription (subscription_id : string)
| CreateCustomer (user_data : UserData.t).

(** A call on an adapter: an operation of the contract, or one of the
    operations [RazorpayClient] has beyond it. *)
Inductive invocation :=
| Contract (a : adapter) (op : operation)
| IssueInvoice (invoice_id : string)
| DraftInvoice (customer_id plan_name : string) (plan_amount : Z)
               (plan_currency plan_description : string)
| GetPaymentDowntimes.

Section Dispatch.

Context (net : nat -> outcome) (str : APIError -> string).
Context (coerce : value -> option (dict value)).
Context (date_epoch expire_by_epoch : value).
Variable self : BaseAPIClient.

Definition invoke (i : invocation) : M APIResponse :=
  match i with
  | Contract PaddleAdapter op =>
      match op with
      | CreateTransaction p s u =>
          Paddle.create_transaction net str coerce self p s u
      | CreatePlan p => Paddle.create_plan net str coerce self p
      | GetTransactionInvoice t =>
          Paddle.get_transaction_invoice net str coerce self t
      | GetSubscriptionDetails s =>
          Paddle.get_subscription_details net str coerce self s
      | EndSubscription s => Paddle.end_subscription net str coerce self s
      | CreateCustomer u => Paddle.create_customer net str coerce self u
      end
  | Contract RazorpayAdapter op =>
      match op with
      | CreateTransaction p s u =>
          Razorpay.create_transaction net str coerce self p s u
      | CreatePlan p => Razorpay.create_plan net str coerce self p
      | GetTransactionInvoice t =>
          Razorpay.get_transaction_invoice net str coerce self t
      | GetSubscriptionDetails s =>
          Razorpay.get_subscription_details net str coerce self s
      | EndSubscription s => Razorpay.end_subscription net str coerce self s
      | CreateCustomer u => Razorpay.create_customer net str coerce self u
      end
  | IssueInvoice i => Razorpay.issue_invoice net str coerce self i
  | DraftInvoice c n a cur d =>
      Razorpay.draft_invoice net str coerce date_epoch expire_by_epoch self
        c n a cur d
  | GetPaymentDowntimes => Razorpay.get_payment_downtimes net str coerce self
  end.

End Dispatch.

(* ================================================================== *)
(** * Vocabulary of the statements *)

(** An attempt fails when no response arrives or the status is outside
    200, 201, 202.  A rejected request is no failure in this sense: it is
    not retried and leads to no [APIError]. *)
Definition is_failure (o : outcome) : bool :=
  match o with
  | Responded r => negb (status_ok (resp_status_code r))
  | Failed _ => true
  | Rejected _ => false
  end.

(** The requests and sleeps of a trace, without its log records. *)
Definition wire (t : list event) : list event :=
  filter (fun e => match e with EvLog _ _ => false | _ => true end) t.

Definition requests (t : list event) : list http_request :=
  flat_map (fun e => match e with EvRequest r => [r] | _ => [] end) t.

Definition sleeps (t : list event) : list Q :=
  flat_map (fun e => match e with EvSleep s => [s] | _ => [] end) t.

(** The sleep that follows a failed attempt which is not the last one: none
    after a response, [backoff_factor * 2^(attempt-1)] seconds after a
    transport failure. *)
Definition backoff_after (backoff_factor : Q) (attempt : nat) (o : outcome)
    : list Q :=
  match o with
  | Responded _ => []
  | Failed _ => [(backoff_factor * inject_Z (2 ^ (Z.of_nat attempt - 1)))%Q]
  | Rejected _ => []
  end.

(** What is observed of such an attempt: its request, then its sleep. *)
Definition failed_attempt (r : http_request) (backoff_factor : Q)
    (attempt : nat) (o : outcome) : list event :=
  EvRequest r :: map EvSleep (backoff_after backoff_factor attempt o).

(** The [APIError] that gives up after a failed attempt that met [o].  No
    [APIError] follows a rejected request; the value there is not used. *)
Definition surfaced_error (o : outcome) : APIError :=
  match o with
  | Responded r =>
      mk_APIError "API call failed after retries"
        (Some (resp_status_code r)) (Some (resp_text r))
  | Failed exc =>
      mk_APIError ("Request error after retries: " ++ exc)%string None None
  | Rejected _ => mk_APIError "" None None
  end.


Section Shapes.

Context (net : nat -> outcome) (str : APIError -> string).
Context (coerce : value -> option (dict value)).

(** How a run of the loop with [budget] passes left can end, and where. *)
Inductive loop_result (n budget : nat) : ending value -> nat -> Prop :=
| LR_skipped :
    budget = 0%nat -> loop_result n budget (Returns VNone) n
| LR_body resp body n' :
    (n < n' <= n + budget)%nat ->
    (forall i, (n <= i < n' - 1)%nat -> is_failure (net i) = true) ->
    net (n' - 1) = Responded resp ->
    status_ok (resp_status_code resp) = true ->
    resp_json resp = Some body ->
    loop_result n budget (Returns body) n'
| LR_undecodable resp n' :
    (n < n' <= n + budget)%nat ->
    net (n' - 1) = Responded resp ->
    status_ok (resp_status_code resp) = true ->
    resp_json resp = None ->
    loop_result n budget (Raises (PyExn JSONDecodeError)) n'
| LR_rejected cls n' :
    (n < n' <= n + budget)%nat ->
    net (n' - 1) = Rejected cls ->
    loop_result n budget (Raises (PyExn (ClientError cls))) n'
| LR_exhausted :
    (0 < budget)%nat ->
    (forall i, (n <= i < n + budget)%nat -> is_failure (net i) = true) ->
    loop_result n budget
      (Raises (PyExn (ExAPIError (surfaced_error (net (n + budget - 1))))))
      (n + budget).

(** [raw] is what a successful operation that ended at request [n'] hands on
    of the provider's answers: what the validation of [APIResponse] makes of
    the decoded body of the last response (the object itself, and [None] for
    the body [null]), or, for Paddle's two-step plan creation, the decoded
    bodies of the product and the price response under the keys "product"
    and "price". *)
Definition raw_of (n n' : nat) (raw : option (dict value)) (body : value)
    : Prop :=
  optional_dict coerce body = Ok raw \/
  exists m resp product,
    (n < m < n')%nat /\ net (m - 1) = Responded resp /\
    status_ok (resp_status_code resp) = true /\
    resp_json resp = Some product /\
    raw = Some [("product"%string, product); ("price"%string, body)].

(** How an operation started at request [n] can end, and where. *)
Inductive settled (n : nat) : ending APIResponse -> nat -> Prop :=
| S_failure n' :
    (n + 3 <= n')%nat ->
    (forall i, (n' - 3 <= i < n')%nat -> is_failure (net i) = true) ->
    settled n
      (Returns (mk_APIResponse false None
                  (Some (str (surfaced_error (net (n' - 1))))) None)) n'
| S_success n' resp body a :
    (n < n')%nat ->
    net (n' - 1) = Responded resp ->
    status_ok (resp_status_code resp) = true ->
    resp_json resp = Some body ->
    success a = true -> data a <> None -> error a = None ->
    raw_of n n' (raw_response a) body ->
    settled n (Returns a) n'
| S_fault n' e :
    (n < n')%nat ->
    is_failure (net (n' - 1)) = false ->
    (forall x, e <> ExAPIError x) ->
    settled n (Raises (PyExn e)) n'.

(** What follows the request in an operation with one request: a
    computation without effects that builds a successful result around the
    body, or raises something other than [APIError]. *)
Definition continuation_ok (k : value -> M APIResponse) : Prop :=
  forall body n,
    (exists a, k body n = (Returns a, n, []) /\
       success a = true /\ data a <> None /\ error a = None /\
       optional_dict coerce body = Ok (raw_response a)) \/
    (exists e, k body n = (Raises (PyExn e), n, []) /\
       forall x, e <> ExAPIError x).

End Shapes.

(** An expression without effects raises no [APIError]. *)
Definition harmless {A} (r : res A) : Prop :=
  forall e, r = Raise e -> forall x, e <> ExAPIError x.


Definition vocabulary (a : adapter) : dict string :=
  match a with
  | PaddleAdapter => Paddle.mapping
  | RazorpayAdapter => Razorpay.mapping
  end.

Definition map_billing_cycle (a : adapter) : string -> string :=
  match a with
  | PaddleAdapter => Paddle._map_billing_cycle
  | RazorpayAdapter => Razorpay._map_billing_cycle
  end.


(** A timestamp field that Razorpay's normalisation copes with: absent, or
    an integer number of seconds within the range of [datetime]. *)
Definition epoch_seconds_or_absent (d : dict value) (k : string) : Prop :=
  match lookup d k with
  | None => True
  | Some (VInt z) => min_timestamp <= z <= max_timestamp
  | Some _ => False
  end.

(** ** Sample data for the closed instances *)

Definition dq : string := String (ascii_of_nat 34) EmptyString.

Definition sample_config : Config :=
  mk_Config "https://paddle.test" "pdl_secret"
            "https://razorpay.test/v1" "rzp_secret".

Definition sample_client : BaseAPIClient :=
  Paddle.PaddleClient Py311 sample_config None.

Definition sample_user : UserData.t := UserData.mk "a@b.com" "A" "B".

Definition sample_request : http_request :=
  mk_http_request "POST" "https://paddle.test/customers"
    (headers sample_client) None None default_timeout.

(** A rendering of [str(e)]: the message of the error. *)
Definition sample_str (e : APIError) : string := message e.

(** The verdict of pydantic 2: no value but [None] and a dictionary passes
    for [raw_response]. *)
Definition strict : value -> option (dict value) := fun _ => None.

(** A provider that cannot be reached. *)
Definition refused : nat -> outcome := fun _ => Failed "connection refused".

(** A provider that answers every request with HTTP 503 and a JSON body. *)
Definition unavailable : response :=
  mk_response 503
    ("{" ++ dq ++ "error" ++ dq ++ ": " ++ dq ++ "unavailable" ++ dq ++ "}")%string
    (Some (VDict [("error"%string, VStr "unavailable")])).

Definition outage : nat -> outcome := fun _ => Responded unavailable.

(** A provider that times out twice and then creates the customer. *)
Definition customer_created : response :=
  mk_response 201
    ("{" ++ dq ++ "data" ++ dq ++ ": {" ++ dq ++ "id" ++ dq ++ ": "
     ++ dq ++ "ctm_01" ++ dq ++ "}}")%string
    (Some (VDict [("data"%string, VDict [("id"%string, VStr "ctm_01")])])).

Definition recovering : nat -> outcome :=
  fun n => if (n <? 2)%nat then Failed "timed out" else Responded customer_created.

(** ** Vocabulary of the further properties *)

(** [m] issues at most [b] requests, each of them satisfies [P], and the
    counter advances by the number of requests in the trace. *)
Definition spends {A} (b : nat) (P : http_request -> Prop) (m : M A) : Prop :=
  forall n,
    let '(r, n', t) := m n in
    n' = (n + List.length (requests t))%nat /\
    (List.length (requests t) <= b)%nat /\
    Forall P (requests t).

(** A request made with the settings of the client: its headers and its
    timeout, no query parameters, a URL under its base URL, GET or POST. *)
Definition uses_client (self : BaseAPIClient) (r : http_request) : Prop :=
  req_headers r = headers self /\
  req_timeout r = timeout self /\
  req_params r = None /\
  (req_method r = "GET"%string \/ req_method r = "POST"%string) /\
  exists endpoint, req_url r = (base_url self ++ endpoint)%string.

(** The number of requests a call on an adapter may issue: three attempts for
    each request-layer call it makes. *)
Definition request_budget (i : invocation) : nat :=
  match i with
  | Contract PaddleAdapter (CreatePlan _) => 6
  | Contract RazorpayAdapter (CreateTransaction _ _ _) => 6
  | _ => 3
  end.

(** An expression without effects raises only exceptions in [E]. *)
Definition raises_only {A} (E : exn -> Prop) (r : res A) : Prop :=
  forall e, r = Raise e -> E e.

(** The seconds slept in a trace, added up. *)
Definition total_sleep (t : list event) : Q :=
  fold_right Qplus 0%Q (sleeps t).

(** ** Further sample data *)

Definition sample_razorpay_client : BaseAPIClient :=
  Razorpay.RazorpayClient Py311 sample_config None.

Definition sample_plan : PlanSchema.t :=
  PlanSchema.mk "plan_7" "Pro" None 4900 (Some "USD"%string) "Monthly" "pri_01".

(** A provider that answers every request with HTTP 200 and a page that is
    no JSON. *)
Definition login_page : response := mk_response 200 "<html>" None.

Definition misrouted : nat -> outcome := fun _ => Responded login_page.

(** A provider that answers every request at once with HTTP 201 and an
    object under "data". *)
Definition healthy : nat -> outcome := fun _ => Responded customer_created.

(** A provider that answers every request with HTTP 202 and an empty
    object. *)
Definition accepted : response := mk_response 202 "{}" (Some (VDict [])).

Definition accepting : nat -> outcome := fun _ => Responded accepted.

(** A provider that answers every request with HTTP 200 and the body
    [null]. *)
Definition null_answer : response := mk_response 200 "null" (Some VNone).

Definition answering_null : nat -> outcome := fun _ => Responded null_answer.

(** Razorpay's answers carry the entity itself. *)
Definition razorpay_entity : response :=
  mk_response 200
    ("{" ++ dq ++ "id" ++ dq ++ ": " ++ dq ++ "cust_01" ++ dq ++ ", "
     ++ dq ++ "status" ++ dq ++ ": " ++ dq ++ "active" ++ dq ++ "}")%string
    (Some (VDict [("id"%string, VStr "cust_01");
                  ("status"%string, VStr "active")])).

Definition razorpay_healthy : nat -> outcome :=
  fun _ => Responded razorpay_entity.

(* ================================================================== *)
(** * The transport policy *)

Create HintDb harmless.

Lemma flat_map_seq_shift {A} (f : nat -> list A) (s len : nat) :
  flat_map f (seq (S s) len) = flat_map (fun i => f (S i)) (seq s len).
Proof.
  revert s. induction len as [| len IH]; intros s; simpl.
  - reflexivity.
  - now rewrite IH.
Qed.

Lemma sleeps_wire (t : list event) : sleeps (wire t) = sleeps t.
Proof.
  induction t as [| e t IH]; [reflexivity |].
  destruct e; simpl; now rewrite ?IH.
Qed.

Lemma sleeps_app (t1 t2 : list event) : sleeps (t1 ++ t2) = sleeps t1 ++ sleeps t2.
Proof. apply flat_map_app. Qed.

Lemma sleeps_map (l : list Q) : sleeps (map EvSleep l) = l.
Proof. induction l as [| q l IH]; simpl; congruence. Qed.

Lemma sleeps_failed_attempts r backoff_factor (f : nat -> nat) (g : nat -> outcome)
    (l : list nat) :
  sleeps (flat_map (fun i => failed_attempt r backoff_factor (f i) (g i)) l
          ++ [EvRequest r])
  = flat_map (fun i => backoff_after backoff_factor (f i) (g i)) l.
Proof.
  induction l as [| i l IH]; [reflexivity |].
  cbn [flat_map]. rewrite <- app_assoc, sleeps_app, IH.
  f_equal. unfold failed_attempt. apply (sleeps_map (backoff_after _ _ _)).
Qed.

Section TransportFacts.

Variable net : nat -> outcome.
Variables (self : BaseAPIClient) (method url : string).
Variables (json_body params : option (dict value)).
Variables (retries : Z) (backoff_factor : Q).

Let the_request : http_request :=
  mk_http_request method url (headers self) json_body params (timeout self).

Let loop := request_loop net self method url json_body params retries backoff_factor.

Lemma loop_exit fuel attempt n :
  retries <= attempt -> loop fuel attempt n = (Returns VNone, n, []).
Proof.
  intros H. unfold loop. destruct fuel; simpl;
    (destruct (attempt <? retries) eqn:E; [apply Z.ltb_lt in E; lia | reflexivity]).
Qed.

Lemma loop_pass fuel attempt n :
  attempt < retries ->
  loop (S fuel) attempt n =
  match net n with
  | Responded resp =>
      if status_ok (resp_status_code resp) then
        (match resp_json resp with
         | Some body => Returns body
         | None => Raises (PyExn JSONDecodeError)
         end, S n,
         [EvRequest the_request;
          if 1 <? attempt + 1
          then EvLog INFO "API call succeeded on retry %d: %s %s"
          else EvLog DEBUG "API call succeeded: %s %s"])
      else if retries <=? attempt + 1 then
        (Raises (PyExn (ExAPIError
           (mk_APIError "API call failed after retries"
              (Some (resp_status_code resp)) (Some (resp_text resp))))),
         S n,
         [EvRequest the_request;
          EvLog ERROR "API call failed: %s %s [Status Code: %d] Response: %s"])
      else
        let '(r, n', t) := loop fuel (attempt + 1) (S n) in
        (r, n',
         EvRequest the_request
         :: EvLog ERROR "API call failed: %s %s [Status Code: %d] Response: %s"
         :: t)
  | Failed exc =>
      if attempt + 1 <? retries then
        let '(r, n', t) := loop fuel (attempt + 1) (S n) in
        (r, n',
         EvRequest the_request
         :: EvLog WARNING
              "Request error during API call: %s %s. Attempt %d/%d. Retrying in %.2f seconds. Error: %s"
         :: EvSleep (backoff_factor * inject_Z (2 ^ (attempt + 1 - 1)))%Q
         :: t)
      else
        (Raises (PyExn (ExAPIError
           (mk_APIError ("Request error after retries: " ++ exc)%string
              None None))),
         S n,
         [EvRequest the_request;
          EvLog ERROR "Exhausted all retries for API call: %s %s. Error: %s"])
  | Rejected cls =>
      (Raises (PyExn (ClientError cls)), S n, [EvRequest the_request])
  end.
Proof.
  intros H. apply Z.ltb_lt in H.
  unfold loop. simpl request_loop. rewrite H.
  unfold try_except, bind, send.
  destruct (net n) as [resp | exc | msg]; [| | reflexivity].
  - destruct (status_ok (resp_status_code resp)).
    + destruct (1 <? attempt + 1); unfold json;
        destruct (resp_json resp); reflexivity.
    + simpl. destruct (retries <=? attempt + 1); simpl.
      * reflexivity.
      * destruct (request_loop _ _ _ _ _ _ _ _ fuel (attempt + 1) (S n)) as [[r n'] t].
        reflexivity.
  - simpl. destruct (attempt + 1 <? retries); simpl.
    + destruct (request_loop _ _ _ _ _ _ _ _ fuel (attempt + 1) (S n)) as [[r n'] t].
      reflexivity.
    + reflexivity.
Qed.

Lemma loop_classified fuel :
  forall attempt n r n' t,
    fuel = Z.to_nat (retries - attempt) ->
    loop fuel attempt n = (r, n', t) ->
    loop_result net n fuel r n'.
Proof.
  induction fuel as [| fuel IH]; intros attempt n r n' t Hfuel Hrun.
  - rewrite loop_exit in Hrun by lia. inversion Hrun; subst.
    now apply LR_skipped.
  - assert (Hlt : attempt < retries) by lia.
    rewrite (loop_pass _ _ _ Hlt) in Hrun.
    destruct (net n) as [resp | exc | msg] eqn:Hnet.
    3:{ inversion Hrun; subst. apply LR_rejected with (cls := msg); [lia |].
        now replace (S n - 1)%nat with n by lia. }
    + destruct (status_ok (resp_status_code resp)) eqn:Hok.
      * destruct (resp_json resp) as [body |] eqn:Hjson;
          inversion Hrun; subst.
        -- apply LR_body with resp; try assumption; try lia.
           now replace (S n - 1)%nat with n by lia.
        -- apply LR_undecodable with resp; try assumption; try lia.
           now replace (S n - 1)%nat with n by lia.
      * destruct (retries <=? attempt + 1) eqn:Hlast.
        -- apply Z.leb_le in Hlast. inversion Hrun; subst.
           assert (fuel = 0%nat) by lia. subst fuel.
           assert (Hx := LR_exhausted net n 1 ltac:(lia)).
           rewrite Nat.add_sub, Hnet in Hx.
           replace (n + 1)%nat with (S n) in Hx by lia.
           apply Hx. intros i Hi. replace i with n by lia. rewrite Hnet. simpl.
           now rewrite Hok.
        -- apply Z.leb_gt in Hlast.
           destruct (loop fuel (attempt + 1) (S n)) as [[r0 n0] t0] eqn:Hrest.
           inversion Hrun; subst.
           assert (Hrec : loop_result net (S n) fuel r n')
          by (apply (IH (attempt + 1) _ _ _ t0); [lia | exact Hrest]).
           assert (Hfail : is_failure (net n) = true).
           { rewrite Hnet. simpl. now rewrite Hok. }
           clear Hrun Hrest IH.
           inversion Hrec; subst.
           ++ lia.
           ++ apply LR_body with resp0; try assumption; try lia.
              intros i Hi. destruct (Nat.eq_dec i n); [now subst | apply H0; lia].
           ++ apply LR_undecodable with resp0; try assumption; lia.
           ++ eapply LR_rejected; try eassumption; lia.
           ++ replace (S n + fuel)%nat with (n + S fuel)%nat by lia.
              replace (S n + fuel - 1)%nat with (n + S fuel - 1)%nat by lia.
              apply LR_exhausted; [lia |].
              intros i Hi. destruct (Nat.eq_dec i n); [now subst | apply H0; lia].
    + assert (Hfail : is_failure (net n) = true) by now rewrite Hnet.
      destruct (attempt + 1 <? retries) eqn:Hmore.
      * apply Z.ltb_lt in Hmore.
        destruct (loop fuel (attempt + 1) (S n)) as [[r0 n0] t0] eqn:Hrest.
        inversion Hrun; subst.
        assert (Hrec : loop_result net (S n) fuel r n')
          by (apply (IH (attempt + 1) _ _ _ t0); [lia | exact Hrest]).
        clear Hrun Hrest IH.
        inversion Hrec; subst.
        -- lia.
        -- apply LR_body with resp; try assumption; try lia.
           intros i Hi. destruct (Nat.eq_dec i n); [now subst | apply H0; lia].
        -- apply LR_undecodable with resp; try assumption; lia.
        -- eapply LR_rejected; try eassumption; lia.
        -- replace (S n + fuel)%nat with (n + S fuel)%nat by lia.
           replace (S n + fuel - 1)%nat with (n + S fuel - 1)%nat by lia.
           apply LR_exhausted; [lia |].
           intros i Hi. destruct (Nat.eq_dec i n); [now subst | apply H0; lia].
      * apply Z.ltb_ge in Hmore. inversion Hrun; subst.
        assert (fuel = 0%nat) by lia. subst fuel.
        assert (Hx := LR_exhausted net n 1 ltac:(lia)).
        rewrite Nat.add_sub, Hnet in Hx.
        replace (n + 1)%nat with (S n) in Hx by lia.
        apply Hx. intros i Hi. now replace i with n by lia.
Qed.

(** Every pass issues one request. *)
Lemma loop_counts fuel :
  forall attempt n r n' t,
    loop fuel attempt n = (r, n', t) ->
    n' = (n + List.length (requests t))%nat.
Proof.
  induction fuel as [| fuel IH]; intros attempt n r n' t Hrun.
  - unfold loop in Hrun. simpl in Hrun.
    destruct (attempt <? retries); inversion Hrun; subst; simpl; lia.
  - destruct (Z_lt_ge_dec attempt retries) as [Hlt | Hge].
    2:{ rewrite loop_exit in Hrun by lia. inversion Hrun; subst. simpl. lia. }
    rewrite (loop_pass _ _ _ Hlt) in Hrun.
    destruct (net n) as [resp | exc | msg].
    3:{ inversion Hrun; subst. simpl. lia. }
    + destruct (status_ok (resp_status_code resp)).
      * inversion Hrun; subst. destruct (1 <? attempt + 1); simpl; lia.
      * destruct (retries <=? attempt + 1).
        -- inversion Hrun; subst. simpl. lia.
        -- destruct (loop fuel (attempt + 1) (S n)) as [[r0 n0] t0] eqn:Hrest.
           inversion Hrun; subst. apply IH in Hrest. simpl. lia.
    + destruct (attempt + 1 <? retries).
      * destruct (loop fuel (attempt + 1) (S n)) as [[r0 n0] t0] eqn:Hrest.
        inversion Hrun; subst. apply IH in Hrest. simpl. lia.
      * inversion Hrun; subst. simpl. lia.
Qed.

(** A run in which the pass at offset [j] is the first to meet a success. *)
Lemma loop_succeeds j :
  forall a n fuel resp body,
    Z.of_nat (a + j) < retries ->
    (j < fuel)%nat ->
    (forall i, (i < j)%nat -> is_failure (net (n + i)) = true) ->
    net (n + j) = Responded resp ->
    status_ok (resp_status_code resp) = true ->
    resp_json resp = Some body ->
    exists t,
      loop fuel (Z.of_nat a) n = (Returns body, S (n + j), t) /\
      wire t =
        flat_map (fun i => failed_attempt the_request backoff_factor (a + 1 + i)
                             (net (n + i))) (seq 0 j)
        ++ [EvRequest the_request].
Proof.
  induction j as [| j IH]; intros a n fuel resp body Ha Hfuel Hfail Hnet Hok Hjson.
  - destruct fuel as [| fuel]; [lia |].
    rewrite loop_pass by lia.
    rewrite Nat.add_0_r in Hnet. rewrite Hnet, Hok, Hjson.
    eexists. split.
    + now rewrite Nat.add_0_r.
    + simpl. now destruct (1 <? Z.of_nat a + 1).
  - destruct fuel as [| fuel]; [lia |].
    rewrite loop_pass by lia.
    assert (Hfirst := Hfail 0%nat ltac:(lia)). rewrite Nat.add_0_r in Hfirst.
    replace (Z.of_nat a + 1) with (Z.of_nat (S a)) by lia.
    destruct (IH (S a) (S n) fuel resp body) as [t [Hrun Hwire]];
      try assumption; try lia.
    { intros i Hi. replace (S n + i)%nat with (n + S i)%nat by lia.
      apply Hfail. lia. }
    { now replace (S n + j)%nat with (n + S j)%nat by lia. }
    assert (Hshift :
      flat_map (fun i => failed_attempt the_request backoff_factor (a + 1 + i)
                           (net (n + i))) (seq 1 j)
      = flat_map (fun i => failed_attempt the_request backoff_factor (S a + 1 + i)
                             (net (S n + i))) (seq 0 j)).
    { rewrite flat_map_seq_shift. apply flat_map_ext. intros i.
      now replace (a + 1 + S i)%nat with (S a + 1 + i)%nat by lia;
        replace (n + S i)%nat with (S n + i)%nat by lia. }
    replace (S (n + S j)) with (S (S n + j)) by lia.
    destruct (net n) as [resp0 | exc | msg] eqn:Hnet0; [| | discriminate].
    + simpl in Hfirst. apply negb_true_iff in Hfirst. rewrite Hfirst.
      replace (retries <=? Z.of_nat (S a)) with false
        by (symmetry; apply Z.leb_gt; lia).
      rewrite Hrun. eexists. split; [reflexivity |].
      cbn [seq flat_map].
      replace (n + 0)%nat with n by lia. rewrite Hnet0, Hshift.
      cbn [wire filter]. fold (wire t). rewrite Hwire. reflexivity.
    + replace (Z.of_nat (S a) <? retries) with true
        by (symmetry; apply Z.ltb_lt; lia).
      rewrite Hrun. eexists. split; [reflexivity |].
      cbn [seq flat_map].
      replace (n + 0)%nat with n by lia. rewrite Hnet0, Hshift.
      cbn [wire filter]. fold (wire t). rewrite Hwire.
      cbn [failed_attempt backoff_after map app].
      now replace (Z.of_nat (a + 1 + 0)) with (Z.of_nat (S a)) by lia.
Qed.

End TransportFacts.

Section MakeRequest.

Variable net : nat -> outcome.
Variables (self : BaseAPIClient) (method endpoint : string).
Variables (json_body params : option (dict value)).

Let the_request : http_request :=
  mk_http_request method (base_url self ++ endpoint)%string (headers self)
    json_body params (timeout self).

(** What a call of [_make_request] can do, whatever the network does. *)
Lemma make_request_classified retries backoff_factor n r n' t :
  _make_request net self method endpoint json_body params retries backoff_factor n
    = (r, n', t) ->
  loop_result net n (Z.to_nat retries) r n' /\
  n' = (n + List.length (requests t))%nat.
Proof.
  unfold _make_request. intros Hrun. split.
  - eapply loop_classified; [| exact Hrun]. f_equal. lia.
  - eapply loop_counts. exact Hrun.
Qed.

(** The fuel [_make_request] gives its loop is enough: the call ends. *)
Lemma make_request_ends retries backoff_factor n :
  fst (fst (_make_request net self method endpoint json_body params
              retries backoff_factor n)) <> Diverges.
Proof.
  destruct (_make_request net self method endpoint json_body params
              retries backoff_factor n) as [[r n'] t] eqn:Hrun.
  apply make_request_classified in Hrun as [Hshape _].
  inversion Hshape; discriminate.
Qed.

(** C2.  A call that succeeds on attempt [k <= retries] (attempts 1 to [k-1]
    fail, attempt [k] meets a success status with a body that decodes) returns
    that body, and the requests and sleeps it performs are, in order: for each
    of the [k-1] failed attempts the request, followed by a sleep of
    [backoff_factor * 2^(attempt-1)] seconds when the attempt was a transport
    failure and by nothing when it was a status failure; then the request
    of attempt [k]. *)
Theorem backoff_follows_transport_failures_only
    (retries : Z) (backoff_factor : Q) (n k : nat) resp body :
  (1 <= k)%nat ->
  Z.of_nat k <= retries ->
  (forall i, (i < k - 1)%nat -> is_failure (net (n + i)) = true) ->
  net (n + (k - 1)) = Responded resp ->
  status_ok (resp_status_code resp) = true ->
  resp_json resp = Some body ->
  exists t,
    _make_request net self method endpoint json_body params
      retries backoff_factor n
    = (Returns body, (n + k)%nat, t) /\
    wire t =
      flat_map (fun i => failed_attempt the_request backoff_factor (S i)
                           (net (n + i))) (seq 0 (k - 1))
      ++ [EvRequest the_request] /\
    sleeps t =
      flat_map (fun i => backoff_after backoff_factor (S i) (net (n + i)))
               (seq 0 (k - 1)).
Proof.
  intros Hk Hle Hfail Hnet Hok Hjson.
  destruct (loop_succeeds net self method (base_url self ++ endpoint)%string
              json_body params retries backoff_factor (k - 1)
              0%nat n (Z.to_nat retries) resp body) as [t [Hrun Hwire]];
    try assumption; try lia.
  exists t. split.
  - unfold _make_request. simpl Z.of_nat in Hrun. rewrite Hrun.
    do 2 f_equal. lia.
  - split; [exact Hwire |].
    rewrite <- sleeps_wire, Hwire.
    apply (sleeps_failed_attempts _ _ (fun i => S i) (fun i => net (n + i))).
Qed.

(** C6.  When each of the [retries >= 1] attempts fails, the call issues
    exactly [retries] requests and raises [APIError]; the error holds the
    status code and the body text of the last response when the last attempt
    was a status failure, and the text of the last exception when it was a
    transport failure. *)
Theorem exhausted_call_surfaces_last_failure
    (retries : Z) (backoff_factor : Q) (n : nat) :
  1 <= retries ->
  (forall i, (i < Z.to_nat retries)%nat -> is_failure (net (n + i)) = true) ->
  exists e t,
    _make_request net self method endpoint json_body params
      retries backoff_factor n
    = (Raises (PyExn (ExAPIError e)), (n + Z.to_nat retries)%nat, t) /\
    List.length (requests t) = Z.to_nat retries /\
    (forall resp, net (n + Z.to_nat retries - 1) = Responded resp ->
       status_code e = Some (resp_status_code resp) /\
       response_text e = Some (resp_text resp)) /\
    (forall exc, net (n + Z.to_nat retries - 1) = Failed exc ->
       message e = ("Request error after retries: " ++ exc)%string).
Proof.
  intros Hpos Hfail.
  destruct (_make_request net self method endpoint json_body params
              retries backoff_factor n) as [[r n'] t] eqn:Hrun.
  destruct (make_request_classified _ _ _ _ _ _ Hrun) as [Hshape Hcount].
  assert (Hbad : forall m resp, (n < m <= n + Z.to_nat retries)%nat ->
            net (m - 1) = Responded resp ->
            status_ok (resp_status_code resp) = true -> False).
  { intros m resp Hm Hnet Hok.
    specialize (Hfail (m - 1 - n)%nat ltac:(lia)).
    replace (n + (m - 1 - n))%nat with (m - 1)%nat in Hfail by lia.
    rewrite Hnet in Hfail. simpl in Hfail. rewrite Hok in Hfail. discriminate. }
  inversion Hshape; subst.
  - lia.
  - exfalso. eapply Hbad; eassumption.
  - exfalso. eapply Hbad; eassumption.
  - match goal with
    | Hnet : net (?m - 1) = Rejected _ |- _ =>
        specialize (Hfail (m - 1 - n)%nat ltac:(lia));
        replace (n + (m - 1 - n))%nat with (m - 1)%nat in Hfail by lia;
        rewrite Hnet in Hfail; discriminate
    end.
  - exists (surfaced_error (net (n + Z.to_nat retries - 1))), t.
    split; [reflexivity |]. split; [lia |].
    split; intros x Hx; rewrite Hx; simpl; auto.
Qed.

Lemma no_attempt_without_retries (retries : Z) (backoff_factor : Q) (n : nat) :
  retries <= 0 ->
  _make_request net self method endpoint json_body params retries backoff_factor n
  = (Returns VNone, n, []).
Proof.
  intros H. unfold _make_request. now apply loop_exit.
Qed.

(** C7, as the code has it.  With [retries = 0] the loop is not entered: the
    call issues no request, raises nothing and returns [None]. *)
Theorem zero_retries_issue_no_request (backoff_factor : Q) (n : nat) :
  _make_request net self method endpoint json_body params 0 backoff_factor n
  = (Returns VNone, n, []).
Proof. apply no_attempt_without_retries. lia. Qed.

End MakeRequest.

(* ================================================================== *)
(** * The adapters *)

Section AdapterFacts.

Context (net : nat -> outcome) (str : APIError -> string).
Context (coerce : value -> option (dict value)).
Context (date_epoch expire_by_epoch : value).
Variable self : BaseAPIClient.

Lemma bind_lift {A B} (r : res A) (f : A -> M B) (n : nat) :
  bind (lift r) f n =
  match r with
  | Ok a => f a n
  | Raise e => (Raises (PyExn e), n, [])
  end.
Proof.
  unfold bind, lift. destruct r as [a | e]; [| reflexivity].
  destruct (f a n) as [[r n'] t]. reflexivity.
Qed.

Lemma harmless_Ok {A} (a : A) : harmless (Ok a).
Proof. intros e H. discriminate. Qed.

Lemma harmless_res_bind {A B} (r : res A) (f : A -> res B) :
  harmless r -> (forall a, harmless (f a)) -> harmless (res_bind r f).
Proof.
  intros Hr Hf e H. destruct r as [a | e0]; simpl in H.
  - eapply Hf. exact H.
  - inversion H; subst. now apply Hr.
Qed.

Lemma harmless_if {A} (b : bool) (r1 r2 : res A) :
  harmless r1 -> harmless r2 -> harmless (if b then r1 else r2).
Proof. now destruct b. Qed.

Lemma harmless_get v k d : harmless (get v k d).
Proof. intros e H x. destruct v; simpl in H; inversion H; discriminate. Qed.

Lemma harmless_getitem v k : harmless (getitem v k).
Proof.
  intros e H x. destruct v; simpl in H; try (inversion H; discriminate).
  destruct (lookup d k); inversion H; discriminate.
Qed.

Lemma harmless_getitem0 v : harmless (getitem0 v).
Proof.
  intros e H x. destruct v as [| | | | s | l | |]; simpl in H;
    try (inversion H; discriminate).
  - destruct s; inversion H; discriminate.
  - destruct l; inversion H; discriminate.
Qed.

Lemma harmless_fromtimestamp v : harmless (fromtimestamp v).
Proof.
  assert (Hus : forall us, harmless (utc_of_micros us)).
  { intros us e H x. unfold utc_of_micros in H.
    destruct ((min_timestamp <=? us / 1000000) && (us / 1000000 <=? max_timestamp))%bool.
    - destruct (civil_from_days (us / 1000000 / 86400)) as [[y m] d]. discriminate.
    - inversion H. discriminate. }
  intros e H x. destruct v; simpl in H;
    try (inversion H; discriminate); eapply Hus; exact H.
Qed.

Lemma harmless_optional_dict v : harmless (optional_dict coerce v).
Proof.
  intros e H x. unfold optional_dict in H.
  destruct v; try discriminate; destruct (coerce _); inversion H; discriminate.
Qed.

#[local] Hint Resolve harmless_Ok harmless_res_bind harmless_if harmless_get
  harmless_getitem harmless_getitem0 harmless_fromtimestamp
  harmless_optional_dict : harmless.

Lemma harmless_get_in v k1 k2 : harmless (get_in v k1 k2).
Proof. unfold get_in. auto with harmless. Qed.

Lemma harmless_paddle_normalize v :
  harmless (Paddle._normalize_subscription_details v).
Proof. unfold Paddle._normalize_subscription_details. auto 20 with harmless. Qed.

Lemma harmless_razorpay_normalize v :
  harmless (Razorpay._normalize_subscription_details v).
Proof. unfold Razorpay._normalize_subscription_details. auto 20 with harmless. Qed.

#[local] Hint Resolve harmless_get_in harmless_paddle_normalize
  harmless_razorpay_normalize : harmless.

Lemma default_budget : Z.to_nat default_retries = 3%nat.
Proof. reflexivity. Qed.

(** An attempt that met a success status or was rejected is no failure. *)
Lemma answered_is_no_failure i resp :
  net i = Responded resp -> status_ok (resp_status_code resp) = true ->
  is_failure (net i) = false.
Proof. intros Hnet Hok. rewrite Hnet. simpl. now rewrite Hok. Qed.

Lemma rejected_is_no_failure i cls :
  net i = Rejected cls -> is_failure (net i) = false.
Proof. intros Hnet. now rewrite Hnet. Qed.

#[local] Hint Resolve answered_is_no_failure rejected_is_no_failure : harmless.

(** A result built around a body. *)
Lemma init_settles (d : dict value) (body : value) (n : nat) :
  (exists a, lift (APIResponse_init coerce d body) n = (Returns a, n, []) /\
     success a = true /\ data a <> None /\ error a = None /\
     optional_dict coerce body = Ok (raw_response a)) \/
  (exists e, lift (APIResponse_init coerce d body) n = (Raises (PyExn e), n, []) /\
     forall x, e <> ExAPIError x).
Proof.
  unfold lift, APIResponse_init.
  destruct (optional_dict coerce body) as [raw | e] eqn:Hraw; cbn [res_bind].
  - left. eexists. repeat split; (reflexivity || discriminate).
  - right. eexists. split; [reflexivity |].
    exact (harmless_optional_dict _ _ Hraw).
Qed.

Lemma guarded_call_settled k method endpoint json_body :
  continuation_ok coerce k ->
  forall n r n' t,
    try_except
      (bind (_make_request net self method endpoint json_body None
               default_retries default_backoff_factor) k)
      (except_APIError str) n = (r, n', t) ->
    settled net str coerce n r n'.
Proof.
  intros Hk n r n' t. unfold try_except, bind.
  destruct (_make_request _ _ _ _ _ _ _ _ n) as [[r0 n0] t0] eqn:Hcall.
  apply make_request_classified in Hcall as [Hshape _].
  rewrite default_budget in Hshape.
  inversion Hshape
    as [Hb | resp body m Hm Hprev Hnet Hok Hjson | resp m Hm Hnet Hok Hjson
        | msg m Hm Hnet | Hb Hall]; subst.
  - discriminate.
  - destruct (Hk body n0) as [[a [Hka [Hs [Hd [He Hr]]]]] | [e [Hke Hne]]].
    + rewrite Hka. intros Heq; inversion Heq; subst.
      eapply S_success; try eassumption; try lia. now left.
    + rewrite Hke. destruct e; try (now destruct (Hne e)).
      all: intros Heq; inversion Heq; subst;
        eapply S_fault; eauto with harmless; lia.
  - simpl. intros Heq; inversion Heq; subst.
    eapply S_fault; eauto with harmless; try lia. intros x; discriminate.
  - simpl. intros Heq; inversion Heq; subst.
    eapply S_fault; eauto with harmless; try lia. intros x; discriminate.
  - simpl. intros Heq; inversion Heq; subst.
    apply S_failure; [lia |]. intros i Hi. apply Hall. lia.
Qed.

Ltac pure_step :=
  rewrite bind_lift;
  match goal with
  | |- context [match ?r with Ok _ => _ | Raise _ => _ end] =>
      let H := fresh "Hpure" in
      let Hh := fresh "Hharmless" in
      assert (Hh : harmless r) by auto 12 with harmless;
      destruct r eqn:H;
      [ clear Hh
      | right; eexists; split; [reflexivity | exact (Hh _ eq_refl)] ]
  end.

Ltac continuation :=
  intros ? ?; repeat pure_step; apply init_settles.

Ltac one_request :=
  intros ? ? ? ?; apply guarded_call_settled; continuation.

Lemma paddle_create_transaction_settled p s u :
  forall n r n' t,
    Paddle.create_transaction net str coerce self p s u n = (r, n', t) ->
    settled net str coerce n r n'.
Proof. one_request. Qed.

Lemma paddle_get_transaction_invoice_settled i :
  forall n r n' t,
    Paddle.get_transaction_invoice net str coerce self i n = (r, n', t) ->
    settled net str coerce n r n'.
Proof. one_request. Qed.

Lemma paddle_get_subscription_details_settled i :
  forall n r n' t,
    Paddle.get_subscription_details net str coerce self i n = (r, n', t) ->
    settled net str coerce n r n'.
Proof. one_request. Qed.

Lemma paddle_end_subscription_settled i :
  forall n r n' t,
    Paddle.end_subscription net str coerce self i n = (r, n', t) ->
    settled net str coerce n r n'.
Proof. one_request. Qed.

Lemma paddle_create_customer_settled u :
  forall n r n' t,
    Paddle.create_customer net str coerce self u n = (r, n', t) ->
    settled net str coerce n r n'.
Proof. one_request. Qed.

Lemma razorpay_create_customer_settled u :
  forall n r n' t,
    Razorpay.create_customer net str coerce self u n = (r, n', t) ->
    settled net str coerce n r n'.
Proof. one_request. Qed.

Lemma razorpay_create_plan_settled p :
  forall n r n' t,
    Razorpay.create_plan net str coerce self p n = (r, n', t) ->
    settled net str coerce n r n'.
Proof. one_request. Qed.

Lemma razorpay_get_transaction_invoice_settled i :
  forall n r n' t,
    Razorpay.get_transaction_invoice net str coerce self i n = (r, n', t) ->
    settled net str coerce n r n'.
Proof. one_request. Qed.

Lemma razorpay_issue_invoice_settled i :
  forall n r n' t,
    Razorpay.issue_invoice net str coerce self i n = (r, n', t) ->
    settled net str coerce n r n'.
Proof. one_request. Qed.

Lemma razorpay_draft_invoice_settled c pn a cur d :
  forall n r n' t,
    Razorpay.draft_invoice net str coerce date_epoch expire_by_epoch self
      c pn a cur d n = (r, n', t) ->
    settled net str coerce n r n'.
Proof. one_request. Qed.

Lemma razorpay_get_subscription_details_settled i :
  forall n r n' t,
    Razorpay.get_subscription_details net str coerce self i n = (r, n', t) ->
    settled net str coerce n r n'.
Proof. one_request. Qed.

Lemma razorpay_end_subscription_settled i :
  forall n r n' t,
    Razorpay.end_subscription net str coerce self i n = (r, n', t) ->
    settled net str coerce n r n'.
Proof. one_request. Qed.

Lemma razorpay_get_payment_downtimes_settled :
  forall n r n' t,
    Razorpay.get_payment_downtimes net str coerce self n = (r, n', t) ->
    settled net str coerce n r n'.
Proof. one_request. Qed.

Lemma except_other e :
  (forall x, e <> ExAPIError x) -> except_APIError str (PyExn e) = None.
Proof. intros H. destruct e; try reflexivity. now destruct (H e). Qed.

Ltac classify_call H :=
  apply make_request_classified in H as [H _];
  rewrite default_budget in H;
  inversion H
    as [Hb | resp body m Hm Hprev Hnet Hok Hjson | resp m Hm Hnet Hok Hjson
        | msg m Hm Hnet | Hb Hall]; subst; clear H; [discriminate | | | | ].

Ltac conclude :=
  let Heq := fresh "Heq" in
  cbn beta iota; intros Heq; inversion Heq; subst; clear Heq.

Ltac faulted :=
  simpl; conclude; eapply S_fault; eauto with harmless; try lia;
  intros x; discriminate.

Lemma paddle_create_plan_settled p :
  forall n r n' t,
    Paddle.create_plan net str coerce self p n = (r, n', t) ->
    settled net str coerce n r n'.
Proof.
  intros n r n' t. unfold Paddle.create_plan, try_except.
  unfold bind at 1.
  destruct (_make_request _ _ _ _ _ _ _ _ n) as [[r1 n1] t1] eqn:Hcall1.
  classify_call Hcall1.
  - rewrite bind_lift.
    assert (Hh : harmless (res_bind (getitem body "data")
                             (fun d => getitem d "id")))
      by auto with harmless.
    destruct (res_bind (getitem body "data") (fun d => getitem d "id"))
      as [product_id | e] eqn:Hpid.
    + unfold bind at 1.
      destruct (_make_request _ _ _ _ _ _ _ _ n1) as [[r2 n2] t2] eqn:Hcall2.
      apply make_request_classified in Hcall2 as [Hcall2 _].
      rewrite default_budget in Hcall2.
      inversion Hcall2
        as [Hb | resp2 price m2 Hm2 Hprev2 Hnet2 Hok2 Hjson2
            | resp2 m2 Hm2 Hnet2 Hok2 Hjson2 | msg2 m2 Hm2 Hnet2
            | Hb2 Hall2]; subst; clear Hcall2.
      * discriminate.
      * rewrite !bind_lift.
        assert (Hh2 : harmless (res_bind (getitem price "data")
                                  (fun d => getitem d "id")))
          by auto with harmless.
        destruct (res_bind (getitem price "data")
                    (fun d => getitem d "id")) as [price_id | e] eqn:Hprice.
        -- unfold lift, APIResponse_init. cbn [optional_dict res_bind].
           conclude.
           eapply S_success with (resp := resp2) (body := price);
             try eassumption; try reflexivity; try discriminate; try lia.
           right. exists n1, resp, body. repeat split; try assumption; lia.
        -- rewrite (except_other _ (Hh2 _ eq_refl)). conclude.
           eapply S_fault; eauto with harmless; try lia;
             exact (Hh2 _ eq_refl).
      * faulted.
      * faulted.
      * simpl. conclude.
        apply S_failure; [lia |]. intros i Hi. apply Hall2. lia.
    + rewrite (except_other _ (Hh _ eq_refl)). conclude.
      eapply S_fault; eauto with harmless; try lia; exact (Hh _ eq_refl).
  - faulted.
  - faulted.
  - simpl. conclude.
    apply S_failure; [lia |]. intros i Hi. apply Hall. lia.
Qed.

Lemma razorpay_create_transaction_settled p s u :
  forall n r n' t,
    Razorpay.create_transaction net str coerce self p s u n = (r, n', t) ->
    settled net str coerce n r n'.
Proof.
  intros n r n' t. unfold Razorpay.create_transaction, try_except.
  unfold bind at 1.
  destruct (Razorpay.create_customer net str coerce self u n)
    as [[r1 n1] t1] eqn:Hcust.
  apply razorpay_create_customer_settled in Hcust.
  inversion Hcust
    as [m1 Hm1 Hall1 | m1 resp1 customer a Hm1 Hnet1 Hok1 Hjson1 Hs Hd He Hraw
        | m1 e Hm1 Hnf1 Hne]; subst; clear Hcust.
  - simpl. conclude. now apply S_failure.
  - rewrite Hs. cbn [negb]. cbv iota.
    destruct (data a) as [d |]; [| now destruct Hd].
    unfold of_optional at 1. rewrite bind_lift. cbn [get]. cbv iota.
    match goal with
    | |- context [bind ?m ?k] =>
        assert (Hrest : forall r2 n2 t2,
                  try_except (bind m k) (except_APIError str) n1 = (r2, n2, t2) ->
                  settled net str coerce n1 r2 n2)
          by (intros r2 n2 t2; apply guarded_call_settled; continuation);
        unfold try_except in Hrest;
        destruct (bind m k n1) as [[r2 n2] t2] eqn:Hsecond
    end.
    assert (Hwiden : forall r3 n3, settled net str coerce n1 r3 n3 ->
                                   settled net str coerce n r3 n3).
    { intros r3 n3 H3.
      inversion H3 as [m Hm Hall | m resp body a3 Hm Hnet Hok Hjson Hs3 Hd3 He3 Hraw3
                       | m e Hm Hnf Hne]; subst.
      - apply S_failure; [lia | assumption].
      - eapply S_success; try eassumption; try lia.
        destruct Hraw3 as [Hraw3 | [m' [resp' [product [Hm' Hrest']]]]].
        + now left.
        + right. exists m', resp', product. split; [lia | exact Hrest'].
      - eapply S_fault; eauto; lia. }
    destruct r2 as [a2 | e2 |]; cbn beta iota in Hrest |- *.
    + conclude. apply Hwiden. eapply Hrest. reflexivity.
    + revert Hrest. destruct (except_APIError str e2) as [h |].
      * destruct (h n2) as [[r3 n3] t3]. intros Hrest. conclude.
        apply Hwiden. eapply Hrest. reflexivity.
      * intros Hrest. conclude. apply Hwiden. eapply Hrest. reflexivity.
    + conclude. apply Hwiden. eapply Hrest. reflexivity.
  - rewrite (except_other _ Hne). conclude.
    eapply S_fault; eauto; lia.
Qed.

(** Every call on an adapter is settled. *)
Lemma invoke_settled (i : invocation) :
  forall n r n' t,
    invoke net str coerce date_epoch expire_by_epoch self i n = (r, n', t) ->
    settled net str coerce n r n'.
Proof.
  destruct i as [[|] [p s u | p | x | x | x | u] | x | c pn a cur d |]; simpl.
  - apply paddle_create_transaction_settled.
  - apply paddle_create_plan_settled.
  - apply paddle_get_transaction_invoice_settled.
  - apply paddle_get_subscription_details_settled.
  - apply paddle_end_subscription_settled.
  - apply paddle_create_customer_settled.
  - apply razorpay_create_transaction_settled.
  - apply razorpay_create_plan_settled.
  - apply razorpay_get_transaction_invoice_settled.
  - apply razorpay_get_subscription_details_settled.
  - apply razorpay_end_subscription_settled.
  - apply razorpay_create_customer_settled.
  - apply razorpay_issue_invoice_settled.
  - apply razorpay_draft_invoice_settled.
  - apply razorpay_get_payment_downtimes_settled.
Qed.

(** A success status with a body that does not decode, met by the first
    attempt of a call. *)
Lemma first_attempt_undecodable method endpoint json_body params
    backoff_factor n resp :
  net n = Responded resp ->
  status_ok (resp_status_code resp) = true ->
  resp_json resp = None ->
  _make_request net self method endpoint json_body params
    default_retries backoff_factor n
  = (Raises (PyExn JSONDecodeError), S n,
     [EvRequest (mk_http_request method (base_url self ++ endpoint)%string
                   (headers self) json_body params (timeout self));
      EvLog DEBUG "API call succeeded: %s %s"]).
Proof.
  intros Hnet Hok Hjson. unfold _make_request.
  change (Z.to_nat default_retries) with 3%nat.
  rewrite loop_pass by (unfold default_retries; lia).
  rewrite Hnet, Hok, Hjson. reflexivity.
Qed.

(** C1, amended.  Whatever the network does, a call on an adapter ends, and
    ends neither with [APIError] nor with the transport's [RequestError].
    When the request layer raises [APIError] [e] where the call ends, the
    call returns the result with [success = False], no data and
    [error = str(e)].  When every attempt meets a transport failure or a
    failure status, the call returns that result for the error of the last
    attempt.  No other exception is converted: when the first request meets
    a success status with a body that does not decode, [JSONDecodeError]
    leaves the call; and whenever an exception leaves a call, the last
    attempt had not failed. *)
Theorem request_failure_yields_failed_result (i : invocation) n r n' t :
  invoke net str coerce date_epoch expire_by_epoch self i n = (r, n', t) ->
  (r <> Diverges /\
   (forall e, r <> Raises (PyExn (ExAPIError e))) /\
   (forall exc, r <> Raises (RequestError exc))) /\
  (forall client method endpoint json_body params k t' e,
     (n <= k)%nat ->
     _make_request net client method endpoint json_body params
       default_retries default_backoff_factor k
     = (Raises (PyExn (ExAPIError e)), n', t') ->
     r = Returns (mk_APIResponse false None (Some (str e)) None)) /\
  ((forall j, (n <= j)%nat -> is_failure (net j) = true) ->
   r = Returns (mk_APIResponse false None
                  (Some (str (surfaced_error (net (n' - 1))))) None)) /\
  (forall resp,
     net n = Responded resp -> status_ok (resp_status_code resp) = true ->
     resp_json resp = None ->
     r = Raises (PyExn JSONDecodeError) /\ n' = S n) /\
  (forall e, r = Raises e -> (n < n')%nat /\ is_failure (net (n' - 1)) = false).
Proof.
  intros Hrun.
  assert (Hundecodable : forall resp,
            net n = Responded resp -> status_ok (resp_status_code resp) = true ->
            resp_json resp = None ->
            r = Raises (PyExn JSONDecodeError) /\ n' = S n).
  { intros resp Hnet Hok Hjson. revert Hrun.
    destruct i as [[|] [p s u | p | x | x | x | u] | x | c pn a cur d |];
      cbn [invoke];
      unfold Paddle.create_transaction, Paddle.create_plan,
        Paddle.get_transaction_invoice, Paddle.get_subscription_details,
        Paddle.end_subscription, Paddle.create_customer,
        Razorpay.create_transaction, Razorpay.create_customer,
        Razorpay.create_plan, Razorpay.get_transaction_invoice,
        Razorpay.issue_invoice, Razorpay.draft_invoice,
        Razorpay.get_subscription_details, Razorpay.end_subscription,
        Razorpay.get_payment_downtimes, try_except, bind;
      rewrite (first_attempt_undecodable _ _ _ _ _ _ _ Hnet Hok Hjson);
      cbn [except_APIError]; intros Heq; inversion Heq; split; reflexivity. }
  apply invoke_settled in Hrun.
  assert (Hclash : is_failure (net (n' - 1)) = false ->
                   is_failure (net (n' - 1)) = true -> False)
    by (intros H1 H2; rewrite H1 in H2; discriminate).
  split; [| split; [| split; [| split]]].
  - inversion Hrun as [m Hm Hfail | m resp body a Hm Hnet Hok
                       | m x Hm Hnf Hne]; subst;
      repeat split; try discriminate.
    intros e Heq. inversion Heq; subst. now apply (Hne e).
  - intros client method endpoint json_body params k t' e Hk Hcall.
    apply make_request_classified in Hcall as [Hcall _].
    rewrite default_budget in Hcall.
    inversion Hcall as [| | | | Hb Hall]; subst.
    assert (Hlast : is_failure (net (k + 3 - 1)) = true) by (apply Hall; lia).
    inversion Hrun as [m Hm Hfail | m resp body a Hm Hnet Hok
                       | m x Hm Hnf Hne]; subst.
    + reflexivity.
    + exfalso. apply Hclash; eauto with harmless.
    + exfalso. apply Hclash; eauto with harmless.
  - intros Hdown.
    inversion Hrun as [m Hm Hfail | m resp body a Hm Hnet Hok
                       | m x Hm Hnf Hne]; subst.
    + reflexivity.
    + exfalso. apply Hclash; [eauto with harmless | apply Hdown; lia].
    + exfalso. apply Hclash; [eauto with harmless | apply Hdown; lia].
  - exact Hundecodable.
  - intros e He. subst r.
    inversion Hrun as [| | m x Hm Hnf Hne]; subst. split; assumption.
Qed.

(** C3.  In every result a call on an adapter returns, [success] is false
    exactly when [error] is there and [data] is not, and true exactly when
    [data] is there and [error] is not. *)
Theorem success_tells_data_from_error (i : invocation) n a n' t :
  invoke net str coerce date_epoch expire_by_epoch self i n = (Returns a, n', t) ->
  (success a = false <-> error a <> None /\ data a = None) /\
  (success a = true <-> data a <> None /\ error a = None).
Proof.
  intros Hrun. apply invoke_settled in Hrun.
  inversion Hrun as [m Hm Hfail | m resp body a' Hm Hnet Hok Hjson Hs Hd He Hraw
                     | ]; subst; simpl.
  - repeat split; try discriminate; try tauto.
  - rewrite Hs, He. repeat split; try discriminate; try tauto.
Qed.


End AdapterFacts.

(* ================================================================== *)
(** * Billing cycles *)


(** Paddle's words are the values of the members of [BillingCycle]: the
    adapter maps the name of a member to its value. *)
Lemma paddle_word_is_member_value c :
  Paddle._map_billing_cycle (BillingCycle_name c) = BillingCycle_value c.
Proof. now destruct c. Qed.


(* ================================================================== *)
(** * Request headers *)

(** On Python 3.10 the headers are as the enum's values suggest. *)
Lemma build_headers_py310 (secret : string) :
  lookup (_build_headers Py310 secret BEARER) "Authorization"
    = Some ("Bearer " ++ secret)%string /\
  lookup (_build_headers Py310 secret BASIC) "Authorization"
    = Some ("Basic " ++ secret)%string.
Proof. split; reflexivity. Qed.

(** Whatever the interpreter, an API key goes into [X-Api-Key] with no
    [Authorization] header, and the JSON content type is always set. *)
Lemma build_headers_any_version py (secret : string) (m : AuthMethod) :
  lookup (_build_headers py secret API_KEY) "X-Api-Key" = Some secret /\
  lookup (_build_headers py secret API_KEY) "Authorization" = None /\
  lookup (_build_headers py secret m) "Content-Type" = Some "application/json"%string.
Proof. repeat split; try reflexivity. now destruct m. Qed.

(** C8, as the code has it from Python 3.11 on: the scheme in the
    [Authorization] header is the qualified name of the enum member, not
    its value. *)
Theorem authorization_header_py311 :
  lookup (_build_headers Py311 "abc" BEARER) "Authorization"
  = Some "AuthMethod.BEARER abc"%string.
Proof. reflexivity. Qed.

(* ================================================================== *)
(** * Normalised subscriptions *)

(** X22.  Paddle's normalisation hands the two timestamps on as it finds
    them. *)
Lemma paddle_timestamps_pass_through (d : dict value) details :
  Paddle._normalize_subscription_details (VDict d) = Ok details ->
  lookup details "created_at" = Some (dict_get d "created_at" VNone) /\
  lookup details "next_billing_date" = Some (dict_get d "next_billed_at" VNone).
Proof.
  unfold Paddle._normalize_subscription_details. cbn [get res_bind].
  destruct (truthy (dict_get d "items" VNone)).
  - destruct (res_bind (getitem0 _) _); cbn [res_bind]; [| discriminate].
    intros H; inversion H; subst. split; reflexivity.
  - cbn [res_bind]. intros H; inversion H; subst. split; reflexivity.
Qed.

(** C9, as the code has it.  The same instants, as Paddle and as Razorpay
    send them, come out of the two normalisations in two representations:
    Paddle's ISO-8601 strings stay strings, Razorpay's epoch seconds become
    [datetime] values. *)
Theorem timestamps_are_not_unified :
  (exists details,
     Paddle._normalize_subscription_details
       (VDict [("id"%string, VStr "sub_01");
               ("created_at"%string, VStr "2024-01-01T00:00:00Z");
               ("next_billed_at"%string, VStr "2024-02-01T00:00:00Z")])
       = Ok details /\
     lookup details "created_at" = Some (VStr "2024-01-01T00:00:00Z") /\
     lookup details "next_billing_date" = Some (VStr "2024-02-01T00:00:00Z")) /\
  (exists details,
     Razorpay._normalize_subscription_details
       (VDict [("id"%string, VStr "sub_01");
               ("created_at"%string, VInt 1704067200);
               ("current_end"%string, VInt 1706745600)])
       = Ok details /\
     lookup details "created_at"
       = Some (VDatetime (mk_datetime 2024 1 1 0 0 0 0)) /\
     lookup details "next_billing_date"
       = Some (VDatetime (mk_datetime 2024 2 1 0 0 0 0))).
Proof.
  split; eexists; (split; [vm_compute; reflexivity | split; reflexivity]).
Qed.

Lemma fromtimestamp_in_range z :
  min_timestamp <= z <= max_timestamp -> exists t, fromtimestamp (VInt z) = Ok t.
Proof.
  intros H. unfold fromtimestamp, utc_of_micros.
  rewrite Z.div_mul by discriminate.
  replace ((min_timestamp <=? z) && (z <=? max_timestamp))%bool with true
    by (symmetry; apply andb_true_iff; split; apply Z.leb_le; lia).
  destruct (civil_from_days (z / 86400)) as [[y m] d]. eexists. reflexivity.
Qed.

Lemma fromtimestamp_field d k :
  epoch_seconds_or_absent d k ->
  exists t, fromtimestamp (dict_get d k (VInt 0)) = Ok t /\
            (lookup d k = None -> t = unix_epoch).
Proof.
  unfold epoch_seconds_or_absent, dict_get.
  destruct (lookup d k) as [[| | z | | | | |] |]; try contradiction.
  - intros H. destruct (fromtimestamp_in_range z H) as [t Ht].
    exists t. split; [exact Ht | discriminate].
  - intros _. exists unix_epoch. split; reflexivity.
Qed.

(** X21.  What holds of C10: for a payload whose "created_at" and
    "current_end" are each absent or an integer number of epoch seconds within
    the range of [datetime], Razorpay's normalisation returns details in which both
    [created_at] and [next_billing_date] are [datetime] values; a field that
    is absent comes out as the Unix epoch, 1970-01-01T00:00:00 UTC. *)
Lemma razorpay_absent_timestamps_become_epoch (d : dict value) :
  epoch_seconds_or_absent d "created_at" ->
  epoch_seconds_or_absent d "current_end" ->
  exists created next,
    Razorpay._normalize_subscription_details (VDict d)
    = Ok [("id"%string, dict_get d "id" VNone);
          ("status"%string, dict_get d "status" VNone);
          ("created_at"%string, VDatetime created);
          ("next_billing_date"%string, VDatetime next);
          ("plan_id"%string, dict_get d "plan_id" VNone);
          ("customer_id"%string, dict_get d "customer_id" VNone)] /\
    (lookup d "created_at" = None -> created = unix_epoch) /\
    (lookup d "current_end" = None -> next = unix_epoch).
Proof.
  intros Hc Hn.
  destruct (fromtimestamp_field _ _ Hc) as [created [Hcreated Hc0]].
  destruct (fromtimestamp_field _ _ Hn) as [next [Hnext Hn0]].
  exists created, next. split; [| split; assumption].
  unfold Razorpay._normalize_subscription_details. cbn [get res_bind].
  rewrite Hcreated. cbn [res_bind]. rewrite Hnext. reflexivity.
Qed.

(* ================================================================== *)
(** * Closed instances *)

(** C1, amended, at a provider that cannot be reached: creating a customer
    through the Paddle adapter returns the failed result whose error is the
    text of the [APIError] of the third attempt. *)
Lemma refused_customer_fails_softly :
  exists n' t,
    invoke refused sample_str strict VNone VNone sample_client
      (Contract PaddleAdapter (CreateCustomer sample_user)) 0%nat
    = (Returns (mk_APIResponse false None
                  (Some "Request error after retries: connection refused"%string)
                  None), n', t).
Proof.
  destruct (invoke refused sample_str strict VNone VNone sample_client
              (Contract PaddleAdapter (CreateCustomer sample_user)) 0%nat)
    as [[r n'] t] eqn:Hrun.
  destruct (request_failure_yields_failed_result _ _ _ _ _ _ _ _ _ _ _ Hrun)
    as [_ [_ [Hdown _]]].
  exists n', t. rewrite (Hdown (fun j _ => eq_refl)). reflexivity.
Defined.

(** C1 as stated, refuted: a provider that answers the customer request
    with HTTP 200 and a page that is no JSON makes the operation raise; the
    [JSONDecodeError] of [response.json()] is no [APIError] and leaves the
    adapter after that one request. *)
Lemma undecodable_body_propagates :
  exists t,
    invoke misrouted sample_str strict VNone VNone sample_client
      (Contract PaddleAdapter (CreateCustomer sample_user)) 0%nat
    = (Raises (PyExn JSONDecodeError), 1%nat, t) /\
    (forall j, misrouted j = Responded login_page) /\
    resp_status_code login_page = 200 /\
    resp_json login_page = None.
Proof. eexists. repeat split. Qed.

(** C2 at the scenario of the specification: three attempts allowed, a
    backoff factor of one second, two timeouts and then a success; the call
    sleeps one second, then two. *)
Lemma backoff_one_then_two_seconds :
  exists t,
    _make_request recovering sample_client "POST" "/customers" None None 3 1 0%nat
    = (Returns (VDict [("data"%string, VDict [("id"%string, VStr "ctm_01")])]),
       3%nat, t) /\
    wire t = [EvRequest sample_request; EvSleep 1;
              EvRequest sample_request; EvSleep 2;
              EvRequest sample_request] /\
    sleeps t = [1%Q; 2%Q].
Proof.
  destruct (backoff_follows_transport_failures_only recovering sample_client
              "POST" "/customers" None None 3 1 0%nat 3%nat customer_created
              (VDict [("data"%string, VDict [("id"%string, VStr "ctm_01")])]))
    as [t [Hrun [Hwire Hsleeps]]]; try reflexivity; try lia.
  - intros i Hi. destruct i as [| [| i]]; [reflexivity | reflexivity | lia].
  - exists t. split; [exact Hrun |].
    split; [rewrite Hwire | rewrite Hsleeps]; reflexivity.
Defined.

(** C3 at a provider that is down: the failed result has an error and no
    data. *)
Lemma outage_result_has_error_only :
  exists a n' t,
    invoke outage sample_str strict VNone VNone sample_client
      (Contract PaddleAdapter (CreateCustomer sample_user)) 0%nat
    = (Returns a, n', t) /\
    (success a = false <-> error a <> None /\ data a = None) /\
    (success a = true <-> data a <> None /\ error a = None).
Proof.
  do 3 eexists. split.
  - vm_compute. reflexivity.
  - eapply (success_tells_data_from_error outage sample_str strict VNone VNone
              sample_client
              (Contract PaddleAdapter (CreateCustomer sample_user)) 0%nat).
    vm_compute. reflexivity.
Defined.



(** C5, amended, at the body [null]: Paddle's cancellation does not read
    the body, so the call succeeds, and its result holds no [raw_response];
    Razorpay's cancellation reads the status of the body and raises. *)
Remark null_body_leaves_no_raw_response :
  fst (fst (Paddle.end_subscription answering_null sample_str strict
              sample_client "sub_01" 0%nat))
  = Returns (mk_APIResponse true
               (Some [("subscription_id"%string, VStr "sub_01");
                      ("status"%string, VStr "cancelled")])
               None None) /\
  fst (fst (Razorpay.end_subscription answering_null sample_str strict
              sample_razorpay_client "sub_01" 0%nat))
  = Raises (PyExn AttributeError).
Proof. split; reflexivity. Qed.

(** C6 at a provider that is down: three requests, and the error holds the
    status and the text of the last response. *)
Lemma outage_surfaces_last_response :
  exists e t,
    _make_request outage sample_client "POST" "/customers" None None
      default_retries default_backoff_factor 0%nat
    = (Raises (PyExn (ExAPIError e)), 3%nat, t) /\
    List.length (requests t) = 3%nat /\
    status_code e = Some 503 /\
    response_text e = Some (resp_text unavailable).
Proof.
  destruct (exhausted_call_surfaces_last_failure outage sample_client
              "POST" "/customers" None None
              default_retries default_backoff_factor 0%nat)
    as [e [t [Hrun [Hcount [Hstatus _]]]]].
  - unfold default_retries. lia.
  - intros i _. reflexivity.
  - exists e, t. repeat split; try assumption;
      now destruct (Hstatus unavailable eq_refl).
Defined.

(** C10, as the code has it.  The default of [get] covers an absent key
    only: a subscription that has not been charged yet carries
    [current_end: null], and the normalisation raises [TypeError] instead of
    returning details with both timestamps. *)
Theorem null_current_end_raises :
  Razorpay._normalize_subscription_details
    (VDict [("id"%string, VStr "sub_01");
            ("status"%string, VStr "created");
            ("created_at"%string, VInt 1704067200);
            ("current_end"%string, VNone)])
  = Raise TypeError.
Proof. reflexivity. Qed.

(** The default at a payload without "current_end". *)
Lemma absent_current_end_becomes_epoch :
  exists created next,
    Razorpay._normalize_subscription_details
      (VDict [("id"%string, VStr "sub_01");
              ("created_at"%string, VInt 1704067200)])
    = Ok [("id"%string, VStr "sub_01");
          ("status"%string, VNone);
          ("created_at"%string, VDatetime created);
          ("next_billing_date"%string, VDatetime next);
          ("plan_id"%string, VNone);
          ("customer_id"%string, VNone)] /\
    (@None value = None -> next = unix_epoch).
Proof.
  destruct (razorpay_absent_timestamps_become_epoch
              [("id"%string, VStr "sub_01");
               ("created_at"%string, VInt 1704067200)])
    as [created [next [Hrun [_ Hnext]]]].
  - unfold epoch_seconds_or_absent, min_timestamp, max_timestamp. simpl. lia.
  - exact I.
  - exists created, next. split; [exact Hrun | exact Hnext].
Defined.

(* ================================================================== *)
(** * Further properties of the transport policy *)

Section TransportBeyond.

Variable net : nat -> outcome.
Variables (self : BaseAPIClient) (method url : string).
Variables (json_body params : option (dict value)).
Variables (retries : Z) (backoff_factor : Q).

Let the_request : http_request :=
  mk_http_request method url (headers self) json_body params (timeout self).

Let loop := request_loop net self method url json_body params retries backoff_factor.

(** Every pass sends the same request. *)
Lemma loop_resends fuel :
  forall attempt n r n' t,
    loop fuel attempt n = (r, n', t) ->
    Forall (eq the_request) (requests t).
Proof.
  induction fuel as [| fuel IH]; intros attempt n r n' t Hrun.
  - unfold loop in Hrun. simpl in Hrun.
    destruct (attempt <? retries); inversion Hrun; subst; constructor.
  - destruct (Z_lt_ge_dec attempt retries) as [Hlt | Hge].
    2:{ unfold loop in Hrun. rewrite loop_exit in Hrun by lia.
        inversion Hrun; subst. constructor. }
    unfold loop in Hrun. rewrite (loop_pass _ _ _ _ _ _ _ _ _ _ _ Hlt) in Hrun.
    destruct (net n) as [resp | exc | msg].
    3:{ inversion Hrun; subst. simpl. repeat constructor. }
    + destruct (status_ok (resp_status_code resp)).
      * inversion Hrun; subst.
        destruct (1 <? attempt + 1); simpl; repeat constructor.
      * destruct (retries <=? attempt + 1).
        -- inversion Hrun; subst. simpl. repeat constructor.
        -- destruct (request_loop _ _ _ _ _ _ _ _ fuel (attempt + 1) (S n))
             as [[r0 n0] t0] eqn:Hrest.
           inversion Hrun; subst. apply IH in Hrest. simpl.
           constructor; [reflexivity | exact Hrest].
    + destruct (attempt + 1 <? retries).
      * destruct (request_loop _ _ _ _ _ _ _ _ fuel (attempt + 1) (S n))
          as [[r0 n0] t0] eqn:Hrest.
        inversion Hrun; subst. apply IH in Hrest. simpl.
        constructor; [reflexivity | exact Hrest].
      * inversion Hrun; subst. simpl. repeat constructor.
Qed.

(** A pass that is entered issues a request. *)
Lemma loop_entered fuel attempt n r n' t :
  attempt < retries ->
  loop (S fuel) attempt n = (r, n', t) ->
  (n < n')%nat.
Proof.
  intros Hlt Hrun. unfold loop in Hrun.
  rewrite (loop_pass _ _ _ _ _ _ _ _ _ _ _ Hlt) in Hrun.
  destruct (net n) as [resp | exc | msg]; [| | inversion Hrun; lia].
  - destruct (status_ok (resp_status_code resp)); [inversion Hrun; lia |].
    destruct (retries <=? attempt + 1); [inversion Hrun; lia |].
    destruct (request_loop _ _ _ _ _ _ _ _ fuel (attempt + 1) (S n))
      as [[r0 n0] t0] eqn:Hrest.
    inversion Hrun; subst. apply loop_counts in Hrest. lia.
  - destruct (attempt + 1 <? retries); [| inversion Hrun; lia].
    destruct (request_loop _ _ _ _ _ _ _ _ fuel (attempt + 1) (S n))
      as [[r0 n0] t0] eqn:Hrest.
    inversion Hrun; subst. apply loop_counts in Hrest. lia.
Qed.

(** The requests and sleeps of any run that issues a request: every attempt
    but the last is followed by its backoff, the last one by nothing. *)
Lemma loop_wire fuel :
  forall a n r n' t,
    (Z.to_nat (retries - Z.of_nat a) <= fuel)%nat ->
    loop fuel (Z.of_nat a) n = (r, n', t) ->
    (n < n')%nat ->
    wire t =
      flat_map (fun i => failed_attempt the_request backoff_factor (a + 1 + i)
                           (net (n + i))) (seq 0 (n' - n - 1))
      ++ [EvRequest the_request].
Proof.
  induction fuel as [| fuel IH]; intros a n r n' t Hfuel Hrun Hn.
  - unfold loop in Hrun. rewrite loop_exit in Hrun by lia.
    inversion Hrun; subst. lia.
  - destruct (Z_lt_ge_dec (Z.of_nat a) retries) as [Hlt | Hge].
    2:{ unfold loop in Hrun. rewrite loop_exit in Hrun by lia.
        inversion Hrun; subst. lia. }
    unfold loop in Hrun. rewrite (loop_pass _ _ _ _ _ _ _ _ _ _ _ Hlt) in Hrun.
    assert (Hshift : forall len,
      flat_map (fun i => failed_attempt the_request backoff_factor (a + 1 + i)
                           (net (n + i))) (seq 1 len)
      = flat_map (fun i => failed_attempt the_request backoff_factor (S a + 1 + i)
                             (net (S n + i))) (seq 0 len)).
    { intros len. rewrite flat_map_seq_shift. apply flat_map_ext. intros i.
      now replace (a + 1 + S i)%nat with (S a + 1 + i)%nat by lia;
        replace (n + S i)%nat with (S n + i)%nat by lia. }
    assert (Hrec : forall r0 n0 t0,
      Z.of_nat (S a) < retries ->
      request_loop net self method url json_body params retries backoff_factor
        fuel (Z.of_nat (S a)) (S n) = (r0, n0, t0) ->
      (S n < n0)%nat /\
      wire t0 =
        flat_map (fun i => failed_attempt the_request backoff_factor (S a + 1 + i)
                             (net (S n + i))) (seq 0 (n0 - S n - 1))
        ++ [EvRequest the_request]).
    { intros r0 n0 t0 Hmore Hrest.
      assert (Hpos : (S n < n0)%nat).
      { destruct fuel as [| fuel']; [lia |].
        eapply loop_entered; [exact Hmore | exact Hrest]. }
      split; [exact Hpos |]. eapply IH; [lia | exact Hrest | exact Hpos]. }
    replace (Z.of_nat a + 1) with (Z.of_nat (S a)) in Hrun by lia.
    destruct (net n) as [resp | exc | msg] eqn:Hnet.
    3:{ inversion Hrun; subst. replace (S n - n - 1)%nat with 0%nat by lia.
        reflexivity. }
    + destruct (status_ok (resp_status_code resp)).
      * inversion Hrun; subst. replace (S n - n - 1)%nat with 0%nat by lia.
        match goal with
        | |- context [if ?c then _ else _] => destruct c
        end; reflexivity.
      * destruct (retries <=? Z.of_nat (S a)) eqn:Hlast.
        -- inversion Hrun; subst. replace (S n - n - 1)%nat with 0%nat by lia.
           reflexivity.
        -- apply Z.leb_gt in Hlast.
           destruct (request_loop _ _ _ _ _ _ _ _ fuel (Z.of_nat (S a)) (S n))
             as [[r0 n0] t0] eqn:Hrest.
           inversion Hrun; subst.
           destruct (Hrec _ _ _ Hlast eq_refl) as [Hpos Hwire].
           replace (n' - n - 1)%nat with (S (n' - S n - 1)) by lia.
           cbn [seq flat_map]. replace (n + 0)%nat with n by lia.
           rewrite Hnet, Hshift. cbn [wire filter]. fold (wire t0).
           rewrite Hwire. reflexivity.
    + destruct (Z.of_nat (S a) <? retries) eqn:Hmore.
      * apply Z.ltb_lt in Hmore.
        destruct (request_loop _ _ _ _ _ _ _ _ fuel (Z.of_nat (S a)) (S n))
          as [[r0 n0] t0] eqn:Hrest.
        inversion Hrun; subst.
        destruct (Hrec _ _ _ Hmore eq_refl) as [Hpos Hwire].
        replace (n' - n - 1)%nat with (S (n' - S n - 1)) by lia.
        cbn [seq flat_map]. replace (n + 0)%nat with n by lia.
        rewrite Hnet, Hshift. cbn [wire filter]. fold (wire t0).
        rewrite Hwire. cbn [failed_attempt backoff_after map app].
        now replace (Z.of_nat (a + 1 + 0)) with (Z.of_nat (S a)) by lia.
      * inversion Hrun; subst. replace (S n - n - 1)%nat with 0%nat by lia.
        reflexivity.
Qed.

(** A run steps over the attempts that fail and goes on from the first one
    that does not. *)
Lemma loop_skips j :
  forall a n fuel,
    Z.of_nat (a + j) < retries ->
    (j < fuel)%nat ->
    (forall i, (i < j)%nat -> is_failure (net (n + i)) = true) ->
    exists prefix,
      loop fuel (Z.of_nat a) n =
      let '(r, n', t) :=
        loop (fuel - j)%nat (Z.of_nat (a + j)) (n + j)%nat in
      (r, n', prefix ++ t).
Proof.
  induction j as [| j IH]; intros a n fuel Ha Hfuel Hfail.
  - exists []. rewrite Nat.sub_0_r, !Nat.add_0_r.
    now destruct (loop fuel (Z.of_nat a) n) as [[r n'] t].
  - destruct fuel as [| fuel]; [lia |].
    assert (Hfirst := Hfail 0%nat ltac:(lia)). rewrite Nat.add_0_r in Hfirst.
    destruct (IH (S a) (S n) fuel) as [prefix Hrest]; try lia.
    { intros i Hi. replace (S n + i)%nat with (n + S i)%nat by lia.
      apply Hfail. lia. }
    replace (S a + j)%nat with (a + S j)%nat in Hrest by lia.
    replace (S n + j)%nat with (n + S j)%nat in Hrest by lia.
    cbn [Nat.sub].
    unfold loop at 1. rewrite loop_pass by lia. fold loop.
    replace (Z.of_nat a + 1) with (Z.of_nat (S a)) by lia.
    destruct (net n) as [resp | exc | msg]; [| | discriminate].
    + simpl in Hfirst. apply negb_true_iff in Hfirst. rewrite Hfirst.
      replace (retries <=? Z.of_nat (S a)) with false
        by (symmetry; apply Z.leb_gt; lia).
      unfold loop in Hrest |- *. rewrite Hrest.
      eexists (_ :: _ :: prefix).
      now destruct (request_loop _ _ _ _ _ _ _ _ (fuel - j)%nat _ _) as [[r n'] t].
    + replace (Z.of_nat (S a) <? retries) with true
        by (symmetry; apply Z.ltb_lt; lia).
      unfold loop in Hrest |- *. rewrite Hrest.
      eexists (_ :: _ :: _ :: prefix).
      now destruct (request_loop _ _ _ _ _ _ _ _ (fuel - j)%nat _ _) as [[r n'] t].
Qed.

End TransportBeyond.

Section MakeRequestBeyond.

Variable net : nat -> outcome.
Variables (self : BaseAPIClient) (method endpoint : string).
Variables (json_body params : option (dict value)).

Let the_request : http_request :=
  mk_http_request method (base_url self ++ endpoint)%string (headers self)
    json_body params (timeout self).

(** X1.  Whatever the network does, a call issues at most [retries] requests,
    and each of them is the same request: the method, the URL made of the
    client's base URL and the endpoint, the client's headers and timeout, the
    body and the query parameters of the call. *)
Theorem retries_resend_one_request (retries : Z) (backoff_factor : Q) (n : nat) :
  let '(r, n', t) :=
    _make_request net self method endpoint json_body params
      retries backoff_factor n in
  requests t = repeat the_request (n' - n) /\
  (n' - n <= Z.to_nat retries)%nat.
Proof.
  destruct (_make_request net self method endpoint json_body params
              retries backoff_factor n) as [[r n'] t] eqn:Hrun.
  destruct (make_request_classified _ _ _ _ _ _ _ _ _ _ _ _ Hrun)
    as [Hshape Hcount].
  split.
  - replace (n' - n)%nat with (List.length (requests t)) by lia.
    apply Forall_eq_repeat. unfold _make_request in Hrun.
    eapply loop_resends. exact Hrun.
  - inversion Hshape; subst; lia.
Qed.

(** X2.  In every call that is allowed an attempt, each attempt but the last
    is followed by its backoff (a sleep after a transport failure, nothing
    after a response) and the last attempt is followed by no sleep, whether
    the call ends well or gives up. *)
Theorem no_sleep_after_the_last_attempt
    (retries : Z) (backoff_factor : Q) (n : nat) r n' t :
  1 <= retries ->
  _make_request net self method endpoint json_body params
    retries backoff_factor n = (r, n', t) ->
  (n < n')%nat /\
  wire t =
    flat_map (fun i => failed_attempt the_request backoff_factor (S i)
                         (net (n + i))) (seq 0 (n' - n - 1))
    ++ [EvRequest the_request] /\
  sleeps t =
    flat_map (fun i => backoff_after backoff_factor (S i) (net (n + i)))
             (seq 0 (n' - n - 1)).
Proof.
  intros Hpos Hrun. unfold _make_request in Hrun.
  assert (Hn : (n < n')%nat).
  { destruct (Z.to_nat retries) as [| fuel] eqn:Hfuel; [lia |].
    eapply loop_entered; [| exact Hrun]. lia. }
  assert (Hwire := loop_wire net self method (base_url self ++ endpoint)%string
                     json_body params retries backoff_factor
                     (Z.to_nat retries) 0%nat n r n' t ltac:(simpl; lia) Hrun Hn).
  split; [exact Hn |]. split; [exact Hwire |].
  rewrite <- sleeps_wire, Hwire.
  apply (sleeps_failed_attempts _ _ (fun i => S i) (fun i => net (n + i))).
Qed.

(** X3.  A success status with a body that does not decode ends the call at
    once: [JSONDecodeError] leaves [_make_request] after that attempt, and no
    further attempt is made although attempts remain. *)
Theorem undecodable_success_is_not_retried
    (retries : Z) (backoff_factor : Q) (n k : nat) resp :
  (1 <= k)%nat ->
  Z.of_nat k <= retries ->
  (forall i, (i < k - 1)%nat -> is_failure (net (n + i)) = true) ->
  net (n + (k - 1)) = Responded resp ->
  status_ok (resp_status_code resp) = true ->
  resp_json resp = None ->
  exists t,
    _make_request net self method endpoint json_body params
      retries backoff_factor n
    = (Raises (PyExn JSONDecodeError), (n + k)%nat, t).
Proof.
  intros Hk Hle Hfail Hnet Hok Hjson. unfold _make_request.
  destruct (loop_skips net self method (base_url self ++ endpoint)%string
              json_body params retries backoff_factor (k - 1)
              0%nat n (Z.to_nat retries)) as [prefix Hskip]; try lia;
    [exact Hfail |].
  simpl Z.of_nat in Hskip at 1. rewrite Hskip.
  destruct (Z.to_nat retries - (k - 1))%nat as [| fuel] eqn:Hfuel; [lia |].
  rewrite loop_pass by lia. rewrite Hnet, Hok, Hjson.
  eexists. do 2 f_equal. lia.
Qed.

(** X4.  The last record of a call that succeeds is its success record: at
    level DEBUG when the first attempt succeeded, at level INFO when an
    earlier attempt had failed. *)
Theorem success_is_logged_by_attempt
    (retries : Z) (backoff_factor : Q) (n k : nat) resp body :
  (1 <= k)%nat ->
  Z.of_nat k <= retries ->
  (forall i, (i < k - 1)%nat -> is_failure (net (n + i)) = true) ->
  net (n + (k - 1)) = Responded resp ->
  status_ok (resp_status_code resp) = true ->
  resp_json resp = Some body ->
  exists t,
    _make_request net self method endpoint json_body params
      retries backoff_factor n
    = (Returns body, (n + k)%nat,
       t ++ [if (k =? 1)%nat
             then EvLog DEBUG "API call succeeded: %s %s"
             else EvLog INFO "API call succeeded on retry %d: %s %s"]).
Proof.
  intros Hk Hle Hfail Hnet Hok Hjson. unfold _make_request.
  destruct (loop_skips net self method (base_url self ++ endpoint)%string
              json_body params retries backoff_factor (k - 1)
              0%nat n (Z.to_nat retries)) as [prefix Hskip]; try lia;
    [exact Hfail |].
  simpl Z.of_nat in Hskip at 1. rewrite Hskip.
  destruct (Z.to_nat retries - (k - 1))%nat as [| fuel] eqn:Hfuel; [lia |].
  rewrite loop_pass by lia. rewrite Hnet, Hok, Hjson.
  exists (prefix ++ [EvRequest the_request]).
  rewrite <- app_assoc. cbn [app]. f_equal; [f_equal; lia |].
  do 3 f_equal.
  destruct (Nat.eqb_spec k 1) as [-> | Hne].
  - reflexivity.
  - replace (1 <? Z.of_nat (0 + (k - 1)) + 1) with true
      by (symmetry; apply Z.ltb_lt; lia).
    reflexivity.
Qed.

End MakeRequestBeyond.

(* ================================================================== *)
(** * Accounting for the requests of a computation *)

Lemma requests_app (t1 t2 : list event) :
  requests (t1 ++ t2) = requests t1 ++ requests t2.
Proof. apply flat_map_app. Qed.

Section Spending.

Context {A B : Type} (P : http_request -> Prop).

Lemma spends_ret (a : A) : spends 0 P (ret a).
Proof. intros n. simpl. repeat split; (lia || constructor). Qed.

Lemma spends_lift (r : res A) : spends 0 P (lift r).
Proof. intros n. unfold lift. destruct r; simpl; repeat split; (lia || constructor). Qed.

Lemma spends_weaken (b b' : nat) (m : M A) :
  (b <= b')%nat -> spends b P m -> spends b' P m.
Proof.
  intros Hle Hm n. specialize (Hm n). destruct (m n) as [[r n'] t].
  destruct Hm as [Hc [Hb HP]]. repeat split; try assumption; lia.
Qed.

Lemma spends_bind (b1 b2 : nat) (m : M A) (f : A -> M B) :
  spends b1 P m -> (forall a, spends b2 P (f a)) ->
  spends (b1 + b2) P (bind m f).
Proof.
  intros Hm Hf n. unfold bind. specialize (Hm n).
  destruct (m n) as [[r n1] t1]. destruct Hm as [Hc [Hb HP]].
  destruct r as [a | e |].
  - specialize (Hf a n1). destruct (f a n1) as [[r2 n2] t2].
    destruct Hf as [Hc2 [Hb2 HP2]].
    rewrite requests_app, length_app. repeat split; try lia.
    apply Forall_app. now split.
  - repeat split; try assumption; lia.
  - repeat split; try assumption; lia.
Qed.

Lemma spends_if (b : nat) (c : bool) (m1 m2 : M A) :
  spends b P m1 -> spends b P m2 -> spends b P (if c then m1 else m2).
Proof. now destruct c. Qed.

Lemma spends_try (b1 b2 : nat) (m : M A) (handler : fault -> option (M A)) :
  spends b1 P m ->
  (forall e h, handler e = Some h -> spends b2 P h) ->
  spends (b1 + b2) P (try_except m handler).
Proof.
  intros Hm Hh n. unfold try_except. specialize (Hm n).
  destruct (m n) as [[r n1] t1]. destruct Hm as [Hc [Hb HP]].
  destruct r as [a | e |]; try (repeat split; try assumption; lia).
  destruct (handler e) as [h |] eqn:He; [| repeat split; try assumption; lia].
  specialize (Hh e h He n1). destruct (h n1) as [[r2 n2] t2].
  destruct Hh as [Hc2 [Hb2 HP2]].
  rewrite requests_app, length_app. repeat split; try lia.
  apply Forall_app. now split.
Qed.

End Spending.

Lemma spends_guarded (P : http_request -> Prop) (b : nat)
    (str : APIError -> string) (m : M APIResponse) :
  spends b P m -> spends b P (try_except m (except_APIError str)).
Proof.
  intros Hm. apply spends_weaken with (b := (b + 0)%nat); [lia |].
  apply spends_try; [exact Hm |].
  intros e h He. destruct e as [[x | | | | | | | | cls] | msg]; try discriminate.
  inversion He; subst. apply spends_ret.
Qed.

Lemma spends_make_request (P : http_request -> Prop) net self method endpoint
    json_body params retries backoff_factor :
  P (mk_http_request method (base_url self ++ endpoint)%string (headers self)
       json_body params (timeout self)) ->
  spends (Z.to_nat retries) P
    (_make_request net self method endpoint json_body params
       retries backoff_factor).
Proof.
  intros HP n.
  destruct (_make_request net self method endpoint json_body params
              retries backoff_factor n) as [[r n'] t] eqn:Hrun.
  destruct (make_request_classified _ _ _ _ _ _ _ _ _ _ _ _ Hrun)
    as [Hshape Hc].
  repeat split; [exact Hc | inversion Hshape; subst; lia |].
  unfold _make_request in Hrun. apply loop_resends in Hrun.
  eapply Forall_impl; [| exact Hrun]. intros x <-. exact HP.
Qed.

Lemma spends_either {A} (P : http_request -> Prop) (b1 b2 : nat) (c : bool)
    (m1 m2 : M A) :
  spends b1 P m1 -> spends b2 P m2 ->
  spends (Nat.max b1 b2) P (if c then m1 else m2).
Proof.
  intros H1 H2. destruct c.
  - eapply spends_weaken; [apply Nat.le_max_l | exact H1].
  - eapply spends_weaken; [apply Nat.le_max_r | exact H2].
Qed.

Section AdapterAccounting.

Context (net : nat -> outcome) (str : APIError -> string).
Context (coerce : value -> option (dict value)).
Context (date_epoch expire_by_epoch : value).
Variable self : BaseAPIClient.

Ltac client_request :=
  unfold uses_client; cbn [req_headers req_timeout req_params req_method req_url];
  repeat split; try reflexivity;
  [ (left; reflexivity) || (right; reflexivity) | eexists; reflexivity ].

Ltac spend :=
  repeat first
    [ apply spends_ret
    | apply spends_lift
    | apply spends_guarded
    | apply spends_make_request; client_request
    | eapply spends_bind; [ | intros ? ] ].

Ltac spend_within := eapply spends_weaken; cycle 1; [spend | simpl; lia].

Lemma razorpay_create_customer_spends u :
  spends 3 (uses_client self) (Razorpay.create_customer net str coerce self u).
Proof. unfold Razorpay.create_customer. spend_within. Qed.

Lemma razorpay_create_transaction_spends p s u :
  spends 6 (uses_client self) (Razorpay.create_transaction net str coerce self p s u).
Proof.
  unfold Razorpay.create_transaction.
  apply spends_guarded.
  apply spends_weaken with (b := (3 + Nat.max 0 (0 + (3 + (0 + (0 + (0 + 0))))))%nat);
    [simpl; lia |].
  apply spends_bind; [apply razorpay_create_customer_spends | intros cr].
  apply spends_either; spend.
Qed.

Lemma invoke_spends (i : invocation) :
  spends (request_budget i) (uses_client self)
    (invoke net str coerce date_epoch expire_by_epoch self i).
Proof.
  destruct i as [[|] [p s u | p | x | x | x | u] | x | c pn a cur d |];
    cbn [invoke request_budget];
    try apply razorpay_create_transaction_spends;
    try apply razorpay_create_customer_spends;
    unfold Paddle.create_transaction, Paddle.create_plan,
      Paddle.get_transaction_invoice, Paddle.get_subscription_details,
      Paddle.end_subscription, Paddle.create_customer,
      Razorpay.create_plan, Razorpay.get_transaction_invoice,
      Razorpay.get_subscription_details, Razorpay.end_subscription,
      Razorpay.issue_invoice, Razorpay.draft_invoice,
      Razorpay.get_payment_downtimes;
    spend_within.
Qed.

End AdapterAccounting.

(* ================================================================== *)
(** * What an expression without effects raises *)

Lemma raises_only_Ok {A} (E : exn -> Prop) (a : A) : raises_only E (Ok a).
Proof. intros e H. discriminate. Qed.

Lemma raises_only_bind {A B} (E : exn -> Prop) (r : res A) (f : A -> res B) :
  raises_only E r -> (forall a, r = Ok a -> raises_only E (f a)) ->
  raises_only E (res_bind r f).
Proof.
  intros Hr Hf e H. destruct r as [a | e0]; simpl in H.
  - eapply Hf; [reflexivity | exact H].
  - inversion H; subst. now apply Hr.
Qed.

Lemma raises_only_getitem (E : exn -> Prop) v k :
  E KeyError -> E TypeError -> raises_only E (getitem v k).
Proof.
  intros HK HT e H. destruct v; simpl in H; try (inversion H; subst; exact HT).
  destruct (lookup d k); inversion H; subst; exact HK.
Qed.

Lemma raises_only_fromtimestamp (E : exn -> Prop) v :
  E TypeError -> E RangeError -> raises_only E (fromtimestamp v).
Proof.
  intros HT HR.
  assert (Hus : forall us, raises_only E (utc_of_micros us)).
  { intros us e H. unfold utc_of_micros in H.
    destruct ((min_timestamp <=? us / 1000000) && (us / 1000000 <=? max_timestamp))%bool.
    - destruct (civil_from_days (us / 1000000 / 86400)) as [[y m] d]. discriminate.
    - inversion H; subst. exact HR. }
  intros e H. destruct v; simpl in H;
    try (inversion H; subst; exact HT); eapply Hus; exact H.
Qed.

Lemma razorpay_normalize_raises (E : exn -> Prop) d :
  E TypeError -> E RangeError ->
  raises_only E (Razorpay._normalize_subscription_details (VDict d)).
Proof.
  intros HT HR. unfold Razorpay._normalize_subscription_details.
  cbn [get res_bind].
  repeat (apply raises_only_bind;
          [now apply raises_only_fromtimestamp | intros ? _]).
  apply raises_only_Ok.
Qed.

(* ================================================================== *)
(** * Further properties of the adapters *)

Section AdapterBeyond.

Context (net : nat -> outcome) (str : APIError -> string).
Context (coerce : value -> option (dict value)).
Context (date_epoch expire_by_epoch : value).
Variable self : BaseAPIClient.

(** X5.  Whatever the network does, a call on an adapter issues at least one
    request and at most three per request-layer call it makes: at most six
    for Paddle's plan creation and Razorpay's transaction creation, at most
    three for every other operation. *)
Theorem operations_stay_within_budget (i : invocation) (n : nat) :
  let '(r, n', t) := invoke net str coerce date_epoch expire_by_epoch self i n in
  n' = (n + List.length (requests t))%nat /\
  (1 <= List.length (requests t) <= request_budget i)%nat.
Proof.
  assert (H := invoke_spends net str coerce date_epoch expire_by_epoch self i n).
  destruct (invoke net str coerce date_epoch expire_by_epoch self i n)
    as [[r n'] t] eqn:Hrun.
  destruct H as [Hc [Hb _]].
  apply invoke_settled in Hrun.
  split; [exact Hc |]. inversion Hrun; subst; lia.
Qed.

(** X6.  Every request a call on an adapter issues carries the headers and
    the timeout the client was built with and no query parameters, uses GET
    or POST, and goes to a URL under the client's base URL. *)
Theorem operations_use_client_settings (i : invocation) (n : nat) :
  Forall (uses_client self)
    (requests (snd (invoke net str coerce date_epoch expire_by_epoch self i n))).
Proof.
  assert (H := invoke_spends net str coerce date_epoch expire_by_epoch self i n).
  destruct (invoke net str coerce date_epoch expire_by_epoch self i n) as [[r n'] t].
  now destruct H as [_ [_ H]].
Qed.

End AdapterBeyond.

Lemma first_attempt_succeeds net self method endpoint json_body params
    backoff_factor n resp body :
  net n = Responded resp ->
  status_ok (resp_status_code resp) = true ->
  resp_json resp = Some body ->
  _make_request net self method endpoint json_body params
    default_retries backoff_factor n
  = (Returns body, S n,
     [EvRequest (mk_http_request method (base_url self ++ endpoint)%string
                   (headers self) json_body params (timeout self));
      EvLog DEBUG "API call succeeded: %s %s"]).
Proof.
  intros Hnet Hok Hjson. unfold _make_request.
  change (Z.to_nat default_retries) with 3%nat.
  rewrite loop_pass by (unfold default_retries; lia).
  rewrite Hnet, Hok, Hjson. reflexivity.
Qed.

Section SingleAnswers.

Context (net : nat -> outcome) (str : APIError -> string).
Context (coerce : value -> option (dict value)).
Variable self : BaseAPIClient.
Variables (n : nat) (resp : response) (body : dict value).
Hypothesis Hnet : net n = Responded resp.
Hypothesis Hok : status_ok (resp_status_code resp) = true.
Hypothesis Hjson : resp_json resp = Some (VDict body).

Ltac answered :=
  unfold try_except, bind;
  rewrite (first_attempt_succeeds _ _ _ _ _ _ _ _ _ _ Hnet Hok Hjson);
  cbn [of_optional].

(** X8.  When Paddle answers the customer request with a success status and
    an object as body, the result depends on the body's "data": without the
    key, the call succeeds with [customer_id = None]; with an object, it
    succeeds with the object's "id" ([None] when it has none); with anything
    else, such as [null], [AttributeError] leaves the adapter after that one
    request. *)
Theorem paddle_customer_by_data (u : UserData.t) :
  (lookup body "data" = None ->
   exists t,
     Paddle.create_customer net str coerce self u n
     = (Returns (mk_APIResponse true (Some [("customer_id"%string, VNone)])
                   None (Some body)), S n, t)) /\
  (forall d, lookup body "data" = Some (VDict d) ->
   exists t,
     Paddle.create_customer net str coerce self u n
     = (Returns (mk_APIResponse true
                   (Some [("customer_id"%string, dict_get d "id" VNone)])
                   None (Some body)), S n, t)) /\
  (forall v, lookup body "data" = Some v -> (forall d, v <> VDict d) ->
   exists t,
     Paddle.create_customer net str coerce self u n
     = (Raises (PyExn AttributeError), S n, t)).
Proof.
  unfold Paddle.create_customer. repeat split.
  - intros Hdata. answered. unfold lift, get_in, get, dict_get. rewrite Hdata.
    eexists. reflexivity.
  - intros d Hdata. answered. unfold lift, get_in. cbn [get].
    replace (dict_get body "data" (VDict [])) with (VDict d)
      by (unfold dict_get; now rewrite Hdata).
    eexists. reflexivity.
  - intros v Hdata Hv. answered. unfold lift, get_in, get, dict_get.
    rewrite Hdata.
    destruct v; try (eexists; reflexivity). now destruct (Hv d).
Qed.

(** X9.  When Razorpay answers the customer request with a success status
    and an object as body, the call succeeds after that one request,
    whatever the object holds: the customer id is the body's "id", and
    [None] when the body has none.  The request is a POST of the customer's
    name, first and last name joined by a space, and e-mail address. *)
Theorem razorpay_customer_of_answer (u : UserData.t) :
  exists t payload,
    Razorpay.create_customer net str coerce self u n
    = (Returns (mk_APIResponse true
                  (Some [("customer_id"%string, dict_get body "id" VNone)])
                  None (Some body)), S n, t) /\
    requests t
    = [mk_http_request "POST" (base_url self ++ "/customers")%string
         (headers self) (Some payload) None (timeout self)] /\
    lookup payload "name"
    = Some (VStr (UserData.firstName u ++ " " ++ UserData.lastName u)%string) /\
    lookup payload "email" = Some (VStr (UserData.email u)).
Proof.
  unfold Razorpay.create_customer. answered.
  do 2 eexists. split; [reflexivity |]. split; [reflexivity |].
  split; reflexivity.
Qed.

(** X10.  When Paddle answers the cancellation with a success status and an
    object as body, the result reports the status "cancelled" for the
    subscription id it was given, whatever the body says; Razorpay's result
    reports the "status" of the body instead, and [None] when the body has
    none. *)
Theorem cancellation_status (subscription_id : string) :
  (exists t,
     Paddle.end_subscription net str coerce self subscription_id n
     = (Returns (mk_APIResponse true
                   (Some [("subscription_id"%string, VStr subscription_id);
                          ("status"%string, VStr "cancelled")])
                   None (Some body)), S n, t)) /\
  (exists t,
     Razorpay.end_subscription net str coerce self subscription_id n
     = (Returns (mk_APIResponse true
                   (Some [("subscription_id"%string, VStr subscription_id);
                          ("status"%string, dict_get body "status" VNone)])
                   None (Some body)), S n, t)).
Proof.
  split.
  - unfold Paddle.end_subscription. answered. eexists. reflexivity.
  - unfold Razorpay.end_subscription. answered. eexists. reflexivity.
Qed.

(** X11.  Paddle's plan creation reads the product id with [product["data"]["id"]]:
    when the product answer lacks "data" or its "id", or "data" is no
    object, [KeyError] or [TypeError] leaves the adapter after the product
    request, and no price request is made. *)
Theorem paddle_plan_needs_product_id (p : PlanSchema.t) (e : exn) :
  res_bind (getitem (VDict body) "data") (fun d => getitem d "id") = Raise e ->
  (e = KeyError \/ e = TypeError) /\
  exists t,
    Paddle.create_plan net str coerce self p n = (Raises (PyExn e), S n, t) /\
    List.length (requests t) = 1%nat.
Proof.
  intros Hid. split.
  - assert (H : raises_only (fun x => x = KeyError \/ x = TypeError)
                  (res_bind (getitem (VDict body) "data")
                            (fun d => getitem d "id"))).
    { apply raises_only_bind; [| intros a _]; apply raises_only_getitem; auto. }
    exact (H e Hid).
  - unfold Paddle.create_plan, try_except. unfold bind at 1.
    rewrite (first_attempt_succeeds _ _ _ _ _ _ _ _ _ _ Hnet Hok Hjson).
    cbn [of_optional]. rewrite bind_lift, Hid. cbv beta iota zeta.
    assert (He : forall x, e <> ExAPIError x).
    { intros x ->. revert Hid. unfold res_bind, getitem.
      destruct (lookup body "data") as [[| | | | | | d |] |]; try discriminate.
      destruct (lookup d "id"); discriminate. }
    rewrite (except_other str e He). eexists. split; reflexivity.
Qed.

End SingleAnswers.

(* ================================================================== *)
(** * Further properties of the pure parts *)

(** X12.  Paddle's normalisation takes the plan id from the first line item:
    when "items" is absent, [null] or empty the plan id is [None] and nothing
    is raised; when "items" is a list that starts with an object, the plan
    id is that object's "price_id" ([None] when it has none). *)
Theorem paddle_plan_id_of_items (d : dict value) :
  (truthy (dict_get d "items" VNone) = false ->
   exists details,
     Paddle._normalize_subscription_details (VDict d) = Ok details /\
     lookup details "plan_id" = Some VNone) /\
  (forall item rest,
     lookup d "items" = Some (VList (VDict item :: rest)) ->
     exists details,
       Paddle._normalize_subscription_details (VDict d) = Ok details /\
       lookup details "plan_id" = Some (dict_get item "price_id" VNone)).
Proof.
  unfold Paddle._normalize_subscription_details. cbn [get res_bind]. split.
  - intros Hfalse. rewrite Hfalse. cbn [res_bind].
    eexists. split; reflexivity.
  - intros item rest Hitems.
    replace (dict_get d "items" VNone) with (VList (VDict item :: rest))
      by (unfold dict_get; now rewrite Hitems).
    replace (dict_get d "items" (VList [VDict []]))
      with (VList (VDict item :: rest))
      by (unfold dict_get; now rewrite Hitems).
    cbn [truthy getitem0 get res_bind]. eexists. split; reflexivity.
Qed.

Lemma lookup_in_values {A} (d : dict A) (k : string) (v : A) :
  lookup d k = Some v -> In v (map snd d).
Proof.
  induction d as [| [k' v'] d IH]; [discriminate |]. simpl.
  destruct (String.eqb k' k); intros H.
  - inversion H. now left.
  - right. now apply IH.
Qed.

(** X13.  Whatever string it is given, [_map_billing_cycle] answers with one
    of the four words of its provider's table. *)
Theorem billing_word_is_in_vocabulary (a : adapter) (s : string) :
  In (map_billing_cycle a s) (map snd (vocabulary a)).
Proof.
  destruct a; cbn [map_billing_cycle vocabulary];
    unfold Paddle._map_billing_cycle, Razorpay._map_billing_cycle, dict_get.
  - destruct (lookup Paddle.mapping (lower s)) as [w |] eqn:Hw.
    + eapply lookup_in_values. exact Hw.
    + simpl. tauto.
  - destruct (lookup Razorpay.mapping (lower s)) as [w |] eqn:Hw.
    + eapply lookup_in_values. exact Hw.
    + simpl. tauto.
Qed.

(** On every interpreter and for every secret, the headers are the
    JSON content type and exactly one header with the secret: [X-Api-Key]
    with the bare secret and no [Authorization] for [API_KEY];
    [Authorization] with the formatted method, a space and the secret, and
    no [X-Api-Key], for [BASIC] and [BEARER]. *)
Theorem one_credential_header (py : python_version) (secret : string)
    (m : AuthMethod) :
  lookup (_build_headers py secret m) "Content-Type"
    = Some "application/json"%string /\
  List.length (_build_headers py secret m) = 2%nat /\
  match m with
  | API_KEY =>
      lookup (_build_headers py secret m) "X-Api-Key" = Some secret /\
      lookup (_build_headers py secret m) "Authorization" = None
  | _ =>
      lookup (_build_headers py secret m) "Authorization"
        = Some (AuthMethod_format py m ++ " " ++ secret)%string /\
      lookup (_build_headers py secret m) "X-Api-Key" = None
  end.
Proof. destruct m; repeat split; reflexivity. Qed.

(** X15.  Every request issued through a client built by [PaddleClient] or
    [RazorpayClient] carries the JSON content type and an [Authorization]
    header made at construction from the adapter's method (Bearer for
    Paddle, Basic for Razorpay) and the secret in force: the one given, or
    the configured one when none or an empty one is given. *)
Theorem requests_carry_the_credentials
    (net : nat -> outcome) (str : APIError -> string)
    (coerce : value -> option (dict value))
    (date_epoch expire_by_epoch : value)
    (py : python_version) (loaded_config : Config) (api_secret : option string)
    (i : invocation) (n : nat) :
  Forall (fun r =>
            lookup (req_headers r) "Content-Type" = Some "application/json"%string /\
            lookup (req_headers r) "Authorization"
            = Some (AuthMethod_format py BEARER ++ " " ++
                    str_or api_secret (paddle_api_secret loaded_config))%string)
    (requests (snd (invoke net str coerce date_epoch expire_by_epoch
                      (Paddle.PaddleClient py loaded_config api_secret) i n))) /\
  Forall (fun r =>
            lookup (req_headers r) "Content-Type" = Some "application/json"%string /\
            lookup (req_headers r) "Authorization"
            = Some (AuthMethod_format py BASIC ++ " " ++
                    str_or api_secret (razorpay_api_secret loaded_config))%string)
    (requests (snd (invoke net str coerce date_epoch expire_by_epoch
                      (Razorpay.RazorpayClient py loaded_config api_secret) i n))).
Proof.
  split.
  - assert (H := invoke_spends net str coerce date_epoch expire_by_epoch
                   (Paddle.PaddleClient py loaded_config api_secret) i n).
    destruct (invoke _ _ _ _ _ _ i n) as [[r n'] t]. destruct H as [_ [_ H]].
    eapply Forall_impl; [| exact H].
    intros x [Hh _]. rewrite Hh. split; reflexivity.
  - assert (H := invoke_spends net str coerce date_epoch expire_by_epoch
                   (Razorpay.RazorpayClient py loaded_config api_secret) i n).
    destruct (invoke _ _ _ _ _ _ i n) as [[r n'] t]. destruct H as [_ [_ H]].
    eapply Forall_impl; [| exact H].
    intros x [Hh _]. rewrite Hh. split; reflexivity.
Qed.

(* ================================================================== *)
(** * How the steps of the two-step operations fit together *)

Lemma requests_of_bind {A B} (m : M A) (f : A -> M B) n a n1 t1 :
  m n = (Returns a, n1, t1) ->
  requests (snd (bind m f n)) = requests t1 ++ requests (snd (f a n1)).
Proof.
  intros Hm. unfold bind. rewrite Hm.
  destruct (f a n1) as [[r2 n2] t2]. simpl. apply requests_app.
Qed.

Lemma requests_of_guarded str (m : M APIResponse) n :
  requests (snd (try_except m (except_APIError str) n)) = requests (snd (m n)).
Proof.
  unfold try_except. destruct (m n) as [[r n1] t1].
  destruct r as [a | e |]; try reflexivity.
  destruct e as [[x | | | | | | | | cls] | msg]; try reflexivity.
  simpl. now rewrite app_nil_r.
Qed.

Lemma requests_after_call {A} net self method endpoint json_body params
    backoff_factor (f : value -> M A) n :
  (forall v, spends 0 (fun _ => False) (f v)) ->
  let req := mk_http_request method (base_url self ++ endpoint)%string
               (headers self) json_body params (timeout self) in
  exists k,
    (1 <= k <= 3)%nat /\
    requests (snd (bind (_make_request net self method endpoint json_body params
                           default_retries backoff_factor) f n))
    = repeat req k.
Proof.
  intros Hf req. unfold bind.
  destruct (_make_request net self method endpoint json_body params
              default_retries backoff_factor n) as [[r n1] t1] eqn:Hrun.
  destruct (make_request_classified _ _ _ _ _ _ _ _ _ _ _ _ Hrun)
    as [Hshape Hc].
  assert (Hpos : (n < n1)%nat).
  { unfold _make_request in Hrun. change (Z.to_nat default_retries) with 3%nat in Hrun.
    eapply loop_entered; [| exact Hrun]. unfold default_retries. lia. }
  assert (Hle : (n1 <= n + 3)%nat) by (inversion Hshape; subst; simpl in *; lia).
  assert (Hreq : requests t1 = repeat req (List.length (requests t1))).
  { apply Forall_eq_repeat. unfold _make_request in Hrun.
    eapply loop_resends. exact Hrun. }
  exists (List.length (requests t1)). split; [lia |].
  destruct r as [v | e |]; try exact Hreq.
  specialize (Hf v n1). destruct (f v n1) as [[r2 n2] t2].
  destruct Hf as [_ [Hz _]]. simpl. rewrite requests_app.
  destruct (requests t2); [| simpl in Hz; lia].
  now rewrite app_nil_r.
Qed.

Lemma three_failures_exhaust (net : nat -> outcome) self method endpoint
    json_body params backoff_factor (n : nat) :
  (forall i, (i < 3)%nat -> is_failure (net (n + i)%nat) = true) ->
  exists t,
    _make_request net self method endpoint json_body params
      default_retries backoff_factor n
    = (Raises (PyExn (ExAPIError (surfaced_error (net (n + 2)%nat)))),
       (n + 3)%nat, t) /\
    requests t
    = repeat (mk_http_request method (base_url self ++ endpoint)%string
                (headers self) json_body params (timeout self)) 3.
Proof.
  intros Hfail.
  destruct (_make_request net self method endpoint json_body params
              default_retries backoff_factor n) as [[r n'] t] eqn:Hrun.
  destruct (make_request_classified _ _ _ _ _ _ _ _ _ _ _ _ Hrun)
    as [Hshape Hc].
  rewrite default_budget in Hshape.
  assert (Hbad : forall m resp, (n < m <= n + 3)%nat ->
            net (m - 1)%nat = Responded resp ->
            status_ok (resp_status_code resp) = true -> False).
  { intros m resp Hm Hnet Hok.
    specialize (Hfail (m - 1 - n)%nat ltac:(lia)).
    replace (n + (m - 1 - n))%nat with (m - 1)%nat in Hfail by lia.
    rewrite Hnet in Hfail. simpl in Hfail. rewrite Hok in Hfail. discriminate. }
  inversion Hshape; subst.
  - discriminate.
  - exfalso. eapply Hbad; eassumption.
  - exfalso. eapply Hbad; eassumption.
  - match goal with
    | Hinv : net (?m - 1)%nat = Rejected _ |- _ =>
        specialize (Hfail (m - 1 - n)%nat ltac:(lia));
        replace (n + (m - 1 - n))%nat with (m - 1)%nat in Hfail by lia;
        rewrite Hinv in Hfail; discriminate
    end.
  - exists t. replace (n + 3 - 1)%nat with (n + 2)%nat by lia.
    split; [reflexivity |].
    replace 3%nat with (List.length (requests t)) at 1 by lia.
    apply Forall_eq_repeat. unfold _make_request in Hrun.
    eapply loop_resends. exact Hrun.
Qed.

Ltac no_requests :=
  eapply spends_weaken; cycle 1;
  [ repeat first [ apply spends_ret | apply spends_lift
                 | eapply spends_bind; [ | intros ? ] ]
  | simpl; lia ].

Section TwoSteps.

Context (net : nat -> outcome) (str : APIError -> string).
Context (coerce : value -> option (dict value)).
Variable self : BaseAPIClient.
Variable n : nat.

(** X16.  When no attempt of the customer request gets through, Razorpay's
    transaction creation stops there: it returns the failed result of the
    customer step after exactly three requests, all of them for the
    customer, and asks for no subscription. *)
Theorem unreachable_customer_ends_transaction
    (p : PlanSchema.t) (s : string) (u : UserData.t) :
  (forall i, (i < 3)%nat -> is_failure (net (n + i)) = true) ->
  exists t,
    Razorpay.create_transaction net str coerce self p s u n
    = (Returns (mk_APIResponse false None
                  (Some (str (surfaced_error (net (n + 2))))) None),
       (n + 3)%nat, t) /\
    List.length (requests t) = 3%nat /\
    Forall (fun r => req_url r = (base_url self ++ "/customers")%string)
           (requests t).
Proof.
  intros Hfail.
  unfold Razorpay.create_transaction, try_except at 1. unfold bind at 1.
  unfold Razorpay.create_customer, try_except at 1. unfold bind at 1.
  match goal with
  | |- context [_make_request ?a ?b ?c ?d ?e ?f _ ?g n] =>
      destruct (three_failures_exhaust a b c d e f g n Hfail) as [t [Hrun Hreq]]
  end.
  rewrite Hrun. cbn -[requests].
  eexists. split; [reflexivity |].
  rewrite !app_nil_r, Hreq. split; [reflexivity |].
  repeat constructor.
Qed.

Variables (resp : response) (body : dict value).
Hypothesis Hnet : net n = Responded resp.
Hypothesis Hok : status_ok (resp_status_code resp) = true.
Hypothesis Hjson : resp_json resp = Some (VDict body).

(** X17.  When Paddle answers the product request at once with a body that
    holds a product id, every later request of the plan creation is a POST
    for the price whose payload names that product id; there are between
    one and three of them. *)
Theorem paddle_price_follows_product (p : PlanSchema.t) (pid : value) :
  res_bind (getitem (VDict body) "data") (fun d => getitem d "id") = Ok pid ->
  exists first payload k,
    requests (snd (Paddle.create_plan net str coerce self p n))
    = first :: repeat (mk_http_request "POST" (base_url self ++ "/prices")%string
                         (headers self) (Some payload) None (timeout self)) k /\
    req_url first = (base_url self ++ "/products")%string /\
    lookup payload "product_id" = Some pid /\
    (1 <= k <= 3)%nat.
Proof.
  intros Hid. unfold Paddle.create_plan.
  rewrite requests_of_guarded.
  rewrite (requests_of_bind _ _ _ _ _ _
             (first_attempt_succeeds _ _ _ _ _ _ _ _ _ _ Hnet Hok Hjson)).
  cbn [of_optional]. rewrite bind_lift, Hid.
  match goal with
  | |- context [bind (_make_request ?a ?b ?c ?d ?e ?f _ ?g) ?k ?x] =>
      destruct (requests_after_call a b c d e f g k x) as [j [Hj Heq]];
      [intros v; no_requests |]
  end.
  rewrite Heq. do 2 eexists. exists j.
  split; [reflexivity |]. repeat split; try reflexivity; lia.
Qed.

(** X18.  When Razorpay answers the customer request at once with a success
    body, every later request of the transaction creation is a POST for the
    subscription whose payload names as customer id the "id" of that body,
    and [None] when the body has no "id"; there are between one and three
    of them. *)
Theorem subscription_follows_customer
    (p : PlanSchema.t) (s : string) (u : UserData.t) :
  exists first payload k,
    requests (snd (Razorpay.create_transaction net str coerce self p s u n))
    = first :: repeat (mk_http_request "POST"
                         (base_url self ++ "/subscriptions")%string
                         (headers self) (Some payload) None (timeout self)) k /\
    req_url first = (base_url self ++ "/customers")%string /\
    lookup payload "customer_id" = Some (dict_get body "id" VNone) /\
    (1 <= k <= 3)%nat.
Proof.
  unfold Razorpay.create_transaction.
  rewrite requests_of_guarded.
  assert (Hcust : exists t1,
    Razorpay.create_customer net str coerce self u n
    = (Returns (mk_APIResponse true
                  (Some [("customer_id"%string, dict_get body "id" VNone)])
                  None (Some body)), S n, t1) /\
    requests t1
    = [mk_http_request "POST" (base_url self ++ "/customers")%string
         (headers self)
         (Some [("name"%string,
                 VStr (UserData.firstName u ++ " " ++ UserData.lastName u)%string);
                ("email"%string, VStr (UserData.email u));
                ("fail_existing"%string, VInt 0)])
         None (timeout self)]).
  { unfold Razorpay.create_customer, try_except, bind.
    rewrite (first_attempt_succeeds _ _ _ _ _ _ _ _ _ _ Hnet Hok Hjson).
    eexists. split; reflexivity. }
  destruct Hcust as [t1 [Hcust Hreq1]].
  rewrite (requests_of_bind _ _ _ _ _ _ Hcust), Hreq1.
  cbn [success negb data of_optional]. rewrite bind_lift. cbn [get].
  match goal with
  | |- context [bind (_make_request ?a ?b ?c ?d ?e ?f _ ?g) ?k ?x] =>
      destruct (requests_after_call a b c d e f g k x) as [j [Hj Heq]];
      [intros v; no_requests |]
  end.
  rewrite Heq. do 2 eexists. exists j.
  split; [reflexivity |]. repeat split; try reflexivity; lia.
Qed.

End TwoSteps.

(* ================================================================== *)
(** * The time a call spends waiting *)

Lemma backoff_sum_bounded (backoff_factor : Q) (g : nat -> outcome) (m : nat) :
  forall s : nat,
  exists w : Z,
    (fold_right Qplus 0
       (flat_map (fun i => backoff_after backoff_factor (S i) (g i)) (seq s m))
     == backoff_factor * inject_Z w)%Q /\
    0 <= w <= 2 ^ Z.of_nat (s + m) - 2 ^ Z.of_nat s.
Proof.
  induction m as [| m IH]; intros s.
  - exists 0. split.
    + cbn [seq flat_map fold_right]. now rewrite Qmult_0_r.
    + replace (s + 0)%nat with s by lia. lia.
  - destruct (IH (S s)) as [w [Hsum Hw]].
    assert (Hs : 2 ^ Z.of_nat (S s) = 2 * 2 ^ Z.of_nat s)
      by (rewrite Nat2Z.inj_succ; apply Z.pow_succ_r; lia).
    assert (Hpos : 0 < 2 ^ Z.of_nat s) by (apply Z.pow_pos_nonneg; lia).
    replace (s + S m)%nat with (S s + m)%nat by lia.
    cbn [seq flat_map].
    destruct (g s) as [resp | exc | msg]; cbn [backoff_after app].
    + exists w. split; [exact Hsum | lia].
    + exists (2 ^ Z.of_nat s + w). split; [| lia].
      cbn [fold_right]. rewrite Hsum, inject_Z_plus.
      replace (Z.of_nat (S s) - 1) with (Z.of_nat s) by lia. ring.
    + exists w. split; [exact Hsum | lia].
Qed.

Section Waiting.

Variable net : nat -> outcome.
Variables (self : BaseAPIClient) (method endpoint : string).
Variables (json_body params : option (dict value)).

Lemma make_request_sleeps (retries : Z) (backoff_factor : Q) (n : nat) r n' t :
  1 <= retries ->
  _make_request net self method endpoint json_body params
    retries backoff_factor n = (r, n', t) ->
  (n < n' <= n + Z.to_nat retries)%nat /\
  sleeps t =
    flat_map (fun i => backoff_after backoff_factor (S i) (net (n + i)%nat))
             (seq 0 (n' - n - 1)).
Proof.
  intros Hpos Hrun.
  destruct (make_request_classified _ _ _ _ _ _ _ _ _ _ _ _ Hrun)
    as [Hshape Hcount].
  unfold _make_request in Hrun.
  assert (Hn : (n < n')%nat).
  { destruct (Z.to_nat retries) as [| fuel] eqn:Hfuel; [lia |].
    eapply loop_entered; [| exact Hrun]. lia. }
  assert (Hwire := loop_wire net self method (base_url self ++ endpoint)%string
                     json_body params retries backoff_factor
                     (Z.to_nat retries) 0%nat n r n' t ltac:(simpl; lia) Hrun Hn).
  split; [inversion Hshape; subst; lia |].
  rewrite <- sleeps_wire, Hwire.
  apply (sleeps_failed_attempts _ _ (fun i => S i) (fun i => net (n + i)%nat)).
Qed.

(** X19.  With a backoff factor that is not negative, a call that is allowed
    [retries >= 1] attempts sleeps in total at most
    [backoff_factor * (2^(retries-1) - 1)] seconds, whatever the network
    does and however the call ends. *)
Theorem total_backoff_is_bounded
    (retries : Z) (backoff_factor : Q) (n : nat) r n' t :
  (0 <= backoff_factor)%Q ->
  1 <= retries ->
  _make_request net self method endpoint json_body params
    retries backoff_factor n = (r, n', t) ->
  (total_sleep t <= backoff_factor * inject_Z (2 ^ (retries - 1) - 1))%Q.
Proof.
  intros Hbf Hpos Hrun.
  destruct (make_request_sleeps _ _ _ _ _ _ Hpos Hrun) as [Hn Hsleeps].
  unfold total_sleep. rewrite Hsleeps.
  destruct (backoff_sum_bounded backoff_factor (fun i => net (n + i)%nat)
              (n' - n - 1) 0) as [w [Hsum Hw]].
  rewrite Hsum.
  rewrite (Qmult_comm backoff_factor (inject_Z w)),
          (Qmult_comm backoff_factor (inject_Z (2 ^ (retries - 1) - 1))).
  apply Qmult_le_compat_r; [| exact Hbf].
  rewrite <- Zle_Qle.
  assert (Hpow : 2 ^ Z.of_nat (0 + (n' - n - 1)) <= 2 ^ (retries - 1))
    by (apply Z.pow_le_mono_r; lia).
  change (2 ^ Z.of_nat 0) with 1 in Hw. lia.
Qed.

End Waiting.

(* ================================================================== *)
(** * Timestamps outside the range of [datetime] *)

Lemma fromtimestamp_out_of_range z :
  z < min_timestamp \/ max_timestamp < z ->
  fromtimestamp (VInt z) = Raise RangeError.
Proof.
  intros H. unfold fromtimestamp, utc_of_micros.
  rewrite Z.div_mul by discriminate.
  replace ((min_timestamp <=? z) && (z <=? max_timestamp))%bool with false;
    [reflexivity |].
  symmetry. apply andb_false_iff.
  destruct H; [left; apply Z.leb_gt | right; apply Z.leb_gt]; assumption.
Qed.

(** X20.  Razorpay's normalisation raises for an integer timestamp outside
    years 1 to 9999, such as epoch milliseconds in place of seconds: in
    "created_at", or in "current_end" next to a "created_at" that is absent
    or in range. *)
Theorem razorpay_timestamp_out_of_range (d : dict value) (z : Z) :
  z < min_timestamp \/ max_timestamp < z ->
  lookup d "created_at" = Some (VInt z) \/
  (epoch_seconds_or_absent d "created_at" /\
   lookup d "current_end" = Some (VInt z)) ->
  Razorpay._normalize_subscription_details (VDict d) = Raise RangeError.
Proof.
  intros Hz [Hc | [Hc Hn]];
    unfold Razorpay._normalize_subscription_details; cbn [get res_bind].
  - replace (dict_get d "created_at" (VInt 0)) with (VInt z)
      by (unfold dict_get; now rewrite Hc).
    now rewrite (fromtimestamp_out_of_range z Hz).
  - destruct (fromtimestamp_field _ _ Hc) as [created [Hcreated _]].
    rewrite Hcreated. cbn [res_bind].
    replace (dict_get d "current_end" (VInt 0)) with (VInt z)
      by (unfold dict_get; now rewrite Hn).
    now rewrite (fromtimestamp_out_of_range z Hz).
Qed.

(* ================================================================== *)
(** * Subscription details, from the answer to the result *)

Section Details.

Context (net : nat -> outcome) (str : APIError -> string).
Context (coerce : value -> option (dict value)).
Variable self : BaseAPIClient.
Variables (n : nat) (resp : response) (body : dict value).
Hypothesis Hnet : net n = Responded resp.
Hypothesis Hok : status_ok (resp_status_code resp) = true.
Hypothesis Hjson : resp_json resp = Some (VDict body).

(** X14.  When the provider answers the details request with a success
    body, the result is what the adapter's normalisation makes of it.
    Razorpay normalises the body itself: details it returns become the data
    of a successful result that keeps the body, and an exception it raises
    leaves the adapter after that one request.  Paddle normalises the
    body's "data", and an empty object when the body has none. *)
Theorem subscription_details_follow_normalisation (subscription_id : string) :
  (forall details,
     Razorpay._normalize_subscription_details (VDict body) = Ok details ->
     exists t,
       Razorpay.get_subscription_details net str coerce self subscription_id n
       = (Returns (mk_APIResponse true (Some details) None (Some body)),
          S n, t)) /\
  (forall e,
     Razorpay._normalize_subscription_details (VDict body) = Raise e ->
     exists t,
       Razorpay.get_subscription_details net str coerce self subscription_id n
       = (Raises (PyExn e), S n, t)) /\
  (forall details,
     Paddle._normalize_subscription_details (dict_get body "data" (VDict []))
     = Ok details ->
     exists t,
       Paddle.get_subscription_details net str coerce self subscription_id n
       = (Returns (mk_APIResponse true (Some details) None (Some body)),
          S n, t)).
Proof.
  repeat split.
  - intros details Hd. unfold Razorpay.get_subscription_details, try_except.
    unfold bind at 1.
    rewrite (first_attempt_succeeds _ _ _ _ _ _ _ _ _ _ Hnet Hok Hjson).
    cbn [of_optional]. rewrite bind_lift, Hd. eexists. reflexivity.
  - intros e He. unfold Razorpay.get_subscription_details, try_except.
    unfold bind at 1.
    rewrite (first_attempt_succeeds _ _ _ _ _ _ _ _ _ _ Hnet Hok Hjson).
    cbn [of_optional]. rewrite bind_lift, He. cbv beta iota zeta.
    assert (Hx : forall x, e <> ExAPIError x).
    { intros x ->.
      assert (H := razorpay_normalize_raises
                     (fun y => y = TypeError \/ y = RangeError) body
                     (or_introl eq_refl) (or_intror eq_refl) _ He).
      destruct H; discriminate. }
    rewrite (except_other str e Hx). eexists. reflexivity.
  - intros details Hd. unfold Paddle.get_subscription_details, try_except.
    unfold bind at 1.
    rewrite (first_attempt_succeeds _ _ _ _ _ _ _ _ _ _ Hnet Hok Hjson).
    cbn [of_optional get]. rewrite bind_lift. cbn [lift].
    rewrite bind_lift, Hd. eexists. reflexivity.
Qed.

End Details.

(* ================================================================== *)
(** * Further closed instances *)

(** X2 at a provider that cannot be reached: three attempts, a sleep of one
    second and one of two, none after the third attempt. *)
Lemma refused_call_sleeps_twice :
  exists r n' t,
    _make_request refused sample_client "POST" "/customers" None None 3 1 0%nat
    = (r, n', t) /\
    n' = 3%nat /\ sleeps t = [1%Q; 2%Q].
Proof.
  do 3 eexists. split; [vm_compute; reflexivity |]. split; [reflexivity |].
  edestruct (no_sleep_after_the_last_attempt refused sample_client
               "POST" "/customers" None None 3 1 0%nat)
    as [_ [_ Hsleeps]]; [lia | vm_compute; reflexivity |].
  rewrite Hsleeps. reflexivity.
Defined.

(** X3 at a provider that answers with a login page: one request, then
    [JSONDecodeError]. *)
Lemma login_page_ends_the_call :
  exists t,
    _make_request misrouted sample_client "GET" "/subscriptions/sub_01"
      None None default_retries default_backoff_factor 0%nat
    = (Raises (PyExn JSONDecodeError), 1%nat, t).
Proof.
  destruct (undecodable_success_is_not_retried misrouted sample_client
              "GET" "/subscriptions/sub_01" None None
              default_retries default_backoff_factor 0%nat 1%nat login_page)
    as [t Ht]; try reflexivity.
  - unfold default_retries. simpl. lia.
  - intros i Hi. simpl in Hi. lia.
  - exists t. exact Ht.
Defined.

(** X4 at a provider that recovers at the third attempt: the success is
    recorded at level INFO. *)
Lemma recovery_is_logged_at_info :
  exists t,
    _make_request recovering sample_client "POST" "/customers" None None 3 1 0%nat
    = (Returns (VDict [("data"%string, VDict [("id"%string, VStr "ctm_01")])]),
       3%nat, t ++ [EvLog INFO "API call succeeded on retry %d: %s %s"]).
Proof.
  destruct (success_is_logged_by_attempt recovering sample_client
              "POST" "/customers" None None 3 1 0%nat 3%nat customer_created
              (VDict [("data"%string, VDict [("id"%string, VStr "ctm_01")])]))
    as [t Ht]; try reflexivity; try lia.
  - intros i Hi. destruct i as [| [| i]]; [reflexivity | reflexivity | simpl in Hi; lia].
  - exists t. exact Ht.
Defined.

(** X8 at a provider that creates the customer at once. *)
Lemma created_customer_is_identified :
  exists t,
    Paddle.create_customer healthy sample_str strict sample_client sample_user 0%nat
    = (Returns (mk_APIResponse true
                  (Some [("customer_id"%string, VStr "ctm_01")])
                  None
                  (Some [("data"%string, VDict [("id"%string, VStr "ctm_01")])])),
       1%nat, t).
Proof.
  destruct (paddle_customer_by_data healthy sample_str strict sample_client 0%nat
              customer_created
              [("data"%string, VDict [("id"%string, VStr "ctm_01")])]
              eq_refl eq_refl eq_refl sample_user) as [_ [Hobject _]].
  destruct (Hobject [("id"%string, VStr "ctm_01")] eq_refl) as [t Ht].
  exists t. exact Ht.
Defined.

(** X9 at a Razorpay that creates the customer at once. *)
Lemma razorpay_customer_is_identified :
  exists t,
    Razorpay.create_customer razorpay_healthy sample_str strict sample_razorpay_client
      sample_user 0%nat
    = (Returns (mk_APIResponse true
                  (Some [("customer_id"%string, VStr "cust_01")])
                  None
                  (Some [("id"%string, VStr "cust_01");
                         ("status"%string, VStr "active")])), 1%nat, t) /\
    map req_url (requests t) = ["https://razorpay.test/v1/customers"%string].
Proof.
  destruct (razorpay_customer_of_answer razorpay_healthy sample_str strict
              sample_razorpay_client 0%nat razorpay_entity
              [("id"%string, VStr "cust_01"); ("status"%string, VStr "active")]
              eq_refl eq_refl eq_refl sample_user)
    as [t [payload [Hrun [Hreq _]]]].
  exists t. split; [exact Hrun |]. rewrite Hreq. reflexivity.
Defined.

(** X10 at a Razorpay that answers with an active subscription: Paddle's
    adapter would report "cancelled", Razorpay's reports "active". *)
Lemma cancellation_reports_the_answer :
  exists t,
    Razorpay.end_subscription razorpay_healthy sample_str strict sample_razorpay_client
      "sub_01" 0%nat
    = (Returns (mk_APIResponse true
                  (Some [("subscription_id"%string, VStr "sub_01");
                         ("status"%string, VStr "active")])
                  None
                  (Some [("id"%string, VStr "cust_01");
                         ("status"%string, VStr "active")])), 1%nat, t).
Proof.
  destruct (cancellation_status razorpay_healthy sample_str strict
              sample_razorpay_client 0%nat razorpay_entity
              [("id"%string, VStr "cust_01"); ("status"%string, VStr "active")]
              eq_refl eq_refl eq_refl "sub_01") as [_ [t Ht]].
  exists t. exact Ht.
Defined.

(** X11 at a provider that accepts the product with an empty object. *)
Lemma empty_product_answer_raises :
  exists t,
    Paddle.create_plan accepting sample_str strict sample_client sample_plan 0%nat
    = (Raises (PyExn KeyError), 1%nat, t) /\
    List.length (requests t) = 1%nat.
Proof.
  destruct (paddle_plan_needs_product_id accepting sample_str strict sample_client
              0%nat accepted [] eq_refl eq_refl eq_refl sample_plan KeyError
              eq_refl) as [_ Hrun].
  exact Hrun.
Defined.

(** X16 at a provider that cannot be reached. *)
Lemma refused_transaction_stops_at_the_customer :
  exists t,
    Razorpay.create_transaction refused sample_str strict sample_razorpay_client
      sample_plan "sub_01" sample_user 0%nat
    = (Returns (mk_APIResponse false None
                  (Some "Request error after retries: connection refused"%string)
                  None), 3%nat, t) /\
    List.length (requests t) = 3%nat /\
    Forall (fun r => req_url r = "https://razorpay.test/v1/customers"%string)
           (requests t).
Proof.
  destruct (unreachable_customer_ends_transaction refused sample_str strict
              sample_razorpay_client 0%nat sample_plan "sub_01" sample_user)
    as [t Ht].
  - intros i _. reflexivity.
  - exists t. exact Ht.
Defined.

(** X17 at a provider that creates the product at once. *)
Lemma price_names_the_product :
  exists first payload k,
    requests (snd (Paddle.create_plan healthy sample_str strict sample_client
                     sample_plan 0%nat))
    = first :: repeat (mk_http_request "POST" "https://paddle.test/prices"
                         (headers sample_client) (Some payload) None
                         default_timeout) k /\
    lookup payload "product_id" = Some (VStr "ctm_01").
Proof.
  destruct (paddle_price_follows_product healthy sample_str strict sample_client
              0%nat customer_created
              [("data"%string, VDict [("id"%string, VStr "ctm_01")])]
              eq_refl eq_refl eq_refl sample_plan (VStr "ctm_01") eq_refl)
    as [first [payload [k [Hreq [_ [Hid _]]]]]].
  exists first, payload, k. split; [exact Hreq | exact Hid].
Defined.

(** X18 at a Razorpay that creates the customer at once. *)
Lemma subscription_names_the_customer :
  exists first payload k,
    requests (snd (Razorpay.create_transaction razorpay_healthy sample_str strict
                     sample_razorpay_client sample_plan "sub_01"
                     sample_user 0%nat))
    = first :: repeat (mk_http_request "POST"
                         "https://razorpay.test/v1/subscriptions"
                         (headers sample_razorpay_client) (Some payload) None
                         default_timeout) k /\
    lookup payload "customer_id" = Some (VStr "cust_01").
Proof.
  destruct (subscription_follows_customer razorpay_healthy sample_str strict
              sample_razorpay_client 0%nat razorpay_entity
              [("id"%string, VStr "cust_01"); ("status"%string, VStr "active")]
              eq_refl eq_refl eq_refl sample_plan "sub_01" sample_user)
    as [first [payload [k [Hreq [_ [Hid _]]]]]].
  exists first, payload, k. split; [exact Hreq | exact Hid].
Defined.

(** X19 at a provider that cannot be reached, with the default settings:
    the bound of four and a half seconds is met. *)
Lemma refused_call_waits_to_the_bound :
  exists r n' t,
    _make_request refused sample_client "POST" "/customers" None None
      default_retries default_backoff_factor 0%nat
    = (r, n', t) /\
    (total_sleep t <= 9 # 2)%Q /\ (9 # 2 <= total_sleep t)%Q.
Proof.
  do 3 eexists. split; [vm_compute; reflexivity |]. split.
  - refine (Qle_trans _ _ _
              (total_backoff_is_bounded refused sample_client
                 "POST" "/customers" None None
                 default_retries default_backoff_factor 0%nat _ _ _ _ _ _) _).
    + unfold default_backoff_factor, Qle. simpl. lia.
    + unfold default_retries. lia.
    + vm_compute. reflexivity.
    + unfold Qle. simpl. lia.
  - unfold Qle. simpl. lia.
Defined.

(** X20 at a payload that counts "created_at" in milliseconds. *)
Lemma epoch_milliseconds_raise :
  Razorpay._normalize_subscription_details
    (VDict [("id"%string, VStr "sub_01");
            ("created_at"%string, VInt 1704067200000)])
  = Raise RangeError.
Proof.
  apply (razorpay_timestamp_out_of_range _ 1704067200000).
  - right. unfold max_timestamp. lia.
  - left. reflexivity.
Defined.

(** X22 at a payload with ISO-8601 timestamps and no line items. *)
Lemma paddle_timestamps_stay_strings :
  exists details,
    Paddle._normalize_subscription_details
      (VDict [("id"%string, VStr "sub_01");
              ("created_at"%string, VStr "2024-01-01T00:00:00Z");
              ("next_billed_at"%string, VStr "2024-02-01T00:00:00Z")])
    = Ok details /\
    lookup details "created_at" = Some (VStr "2024-01-01T00:00:00Z") /\
    lookup details "next_billing_date" = Some (VStr "2024-02-01T00:00:00Z").
Proof.
  eexists. split; [vm_compute; reflexivity |].
  apply (paddle_timestamps_pass_through
           [("id"%string, VStr "sub_01");
            ("created_at"%string, VStr "2024-01-01T00:00:00Z");
            ("next_billed_at"%string, VStr "2024-02-01T00:00:00Z")]).
  vm_compute. reflexivity.
Defined.

(** X14 at a Razorpay that answers with a subscription created at the
    start of 2024 and not charged yet. *)
Lemma details_of_a_new_subscription :
  exists t details,
    Razorpay.get_subscription_details
      (fun _ => Responded
         (mk_response 200 "{...}"
            (Some (VDict [("id"%string, VStr "sub_01");
                          ("created_at"%string, VInt 1704067200)]))))
      sample_str strict sample_razorpay_client "sub_01" 0%nat
    = (Returns (mk_APIResponse true (Some details) None
                  (Some [("id"%string, VStr "sub_01");
                         ("created_at"%string, VInt 1704067200)])),
       1%nat, t) /\
    lookup details "created_at"
    = Some (VDatetime (mk_datetime 2024 1 1 0 0 0 0)) /\
    lookup details "next_billing_date" = Some (VDatetime unix_epoch).
Proof.
  edestruct (subscription_details_follow_normalisation
               (fun _ => Responded
                  (mk_response 200 "{...}"
                     (Some (VDict [("id"%string, VStr "sub_01");
                                   ("created_at"%string, VInt 1704067200)]))))
               sample_str strict sample_razorpay_client 0%nat _ _
               eq_refl eq_refl eq_refl "sub_01") as [Hdetails _].
  edestruct Hdetails as [t Ht]; [vm_compute; reflexivity |].
  exists t. eexists. split; [exact Ht |]. split; reflexivity.
Defined.
